(** * libkfont/kdfontop.c: console font access through three ioctl generations

    A shallow embedding of [src/libkfont/kdfontop.c] and the properties of
    its functions.  C [unsigned int] values are integers of [Z] reduced
    modulo [2^32]; glyph buffers are lists of bytes; the console device,
    [errno] and the allocator are an explicit state that every call threads
    through. *)

From Stdlib Require Import ZArith List Bool Lia.
From Stdlib Require Import Strings.Byte.
Import ListNotations.
Local Open Scope Z_scope.

(** ** Unsigned 32-bit arithmetic *)

Module U32.

Definition modulus : Z := 4294967296.

Definition wrap (z : Z) : Z := z mod modulus.

Definition add (a b : Z) : Z := wrap (a + b).
Definition sub (a b : Z) : Z := wrap (a - b).
Definition mul (a b : Z) : Z := wrap (a * b).

(** The values an [unsigned int] can hold. *)
Definition ok (z : Z) : Prop := 0 <= z < modulus.

End U32.

(** ** Glyph buffers *)

(** [unsigned char *buf]: the bytes the pointer gives access to. *)
Definition buffer : Type := list byte.

(** [buf[i]].  Reading past the end of the object is undefined in C; the
    model reads a zero byte there, and the statements below that depend on
    the bytes read assume the buffer is long enough. *)
Definition load (buf : buffer) (i : Z) : byte := nth (Z.to_nat i) buf x00.

(** ** font_charheight *)

(** [for (v = 0; v < n; v++) if (body v) goto nonzero;]
    [scan body 0 n] is [true] when the jump is taken.  The counter starts
    at [v] and the body runs [n] times at most. *)
Fixpoint scan (body : Z -> bool) (v : Z) (n : nat) : bool :=
  match n with
  | O => false
  | S n' => if body v then true else scan body (v + 1) n'
  end.

(** [(width + 7) / 8] *)
Definition bytewidth_of (width : Z) : Z := U32.add width 7 / 8.

(** [(32 * i + h - 1) * bytewidth + x] *)
Definition glyph_index (bytewidth i h x : Z) : Z :=
  U32.add (U32.mul (U32.sub (U32.add (U32.mul 32 i) h) 1) bytewidth) x.

(** The two inner loops for one value of [h]. *)
Definition row_hit (buf : buffer) (count bytewidth h : Z) : bool :=
  scan (fun i =>
          scan (fun x => negb (Byte.eqb (load buf (glyph_index bytewidth i h x)) x00))
               0 (Z.to_nat bytewidth))
       0 (Z.to_nat count).

(** [for (h = hmax; h > 0; h--) ... nonzero: return h;] *)
Fixpoint rows_down (buf : buffer) (count bytewidth : Z) (hmax : nat) : Z :=
  match hmax with
  | O => 0
  | S h' =>
      if row_hit buf count bytewidth (Z.of_nat hmax) then Z.of_nat hmax
      else rows_down buf count bytewidth h'
  end.

Definition font_charheight (buf : buffer) (count width : Z) : Z :=
  rows_down buf count (bytewidth_of width) 32.

(** *** What the scanner is meant to compute *)

(** Bytes of one glyph row, [ceil (width / 8)], as a number. *)
Definition ceil8 (width : Z) : Z := (width + 7) / 8.

(** Size in bytes of a buffer of [count] glyph slots of 32 rows. *)
Definition font_bytes (count width : Z) : Z := count * 32 * ceil8 width.

(** Row [h] (counted from 1) of glyph [i] has a nonzero byte in column [x]. *)
Definition lit (buf : buffer) (bw i h x : Z) : Prop :=
  load buf ((32 * i + h - 1) * bw + x) <> x00.

(** Some glyph of the font has a nonzero byte in row [h]. *)
Definition row_used (buf : buffer) (count bw h : Z) : Prop :=
  exists i x, 0 <= i < count /\ 0 <= x < bw /\ lit buf bw i h x.

(** [r] is the largest row of 1..32 used by some glyph, or 0 when none is. *)
Definition effective_height (buf : buffer) (count width r : Z) : Prop :=
  0 <= r <= 32 /\
  (1 <= r -> row_used buf count (ceil8 width) r) /\
  (forall h, r < h <= 32 -> ~ row_used buf count (ceil8 width) h).

(** Every byte of the font is zero. *)
Definition all_zero (buf : buffer) (count width : Z) : Prop :=
  forall j, 0 <= j < font_bytes count width -> load buf j = x00.

(** Row [r] (counted from 0) of glyph [k] holds a nonzero byte and every
    byte of the font outside that row is zero. *)
Definition only_row (buf : buffer) (count width k r : Z) : Prop :=
  let bw := ceil8 width in
  (exists x, 0 <= x < bw /\ load buf ((32 * k + r) * bw + x) <> x00) /\
  (forall j, 0 <= j < font_bytes count width ->
             ~ (32 * k + r) * bw <= j < (32 * k + r + 1) * bw ->
             load buf j = x00).

(** The result of [font_charheight] is the effective height; it is 0 on a
    font of zero bytes and [r + 1] on a font whose only nonzero row is row
    [r] of one glyph. *)
Definition charheight_correct (buf : buffer) (count width : Z) : Prop :=
  let res := font_charheight buf count width in
  effective_height buf count width res /\
  (all_zero buf count width -> res = 0) /\
  (forall k r, 0 <= k < count -> 0 <= r < 32 ->
               only_row buf count width k r -> res = r + 1).

(** A font of one 8x32 glyph whose only nonzero byte is in row 4. *)
Definition one_dot : buffer :=
  repeat x00 4 ++ [x80] ++ repeat x00 27.

(** A byte that is set, followed by [n] zero bytes; [huge_buf] has [2^34]
    bytes. *)
Definition set_then_zeros (n : Z) : buffer := x01 :: repeat x00 (Z.to_nat n).

Definition huge_buf : buffer := set_then_zeros 17179869183.

(** [n] zero bytes followed by a byte that is set; [long_buf] has
    [2^32 + 32] bytes, the slots of [2^27 + 1] glyphs of width 8. *)
Definition zeros_then_set (n : Z) : buffer := repeat x00 (Z.to_nat n) ++ [x01].

Definition long_buf : buffer := zeros_then_set 4294967327.

(** ** Constants of the C library and of the kernel headers

    [<errno.h>], [<limits.h>] and [<linux/kd.h>] are system headers; the
    values are those of Linux. *)

Definition EINVAL : Z := 22.
Definition ENOSYS : Z := 38.
Definition USHRT_MAX : Z := 65535.
Definition KD_FONT_OP_SET : Z := 0.
Definition KD_FONT_OP_GET : Z := 1.

(** [(unsigned short) z] *)
Definition to_ushort (z : Z) : Z := z mod 65536.

(** [struct console_font_op]; [cfo_data] is [None] for a null pointer and
    otherwise holds the bytes behind it. *)
Record console_font_op : Type := {
  cfo_op : Z;
  cfo_flags : Z;
  cfo_width : Z;
  cfo_height : Z;
  cfo_charcount : Z;
  cfo_data : option buffer
}.

(** [struct consolefontdesc] *)
Record consolefontdesc : Type := {
  cfd_charcount : Z;
  cfd_charheight : Z;
  cfd_chardata : option buffer
}.

(** ** The device *)

(** The [ioctl] requests the file issues, each with its argument. *)
Inductive request : Type :=
| PIO_FONTRESET
| KDFONTOP (cfo : console_font_op)
| GIO_FONTX (cfd : consolefontdesc)
| PIO_FONTX (cfd : consolefontdesc)
| GIO_FONT (buf : option buffer)
| PIO_FONT (buf : option buffer).

(** What a request that succeeds leaves in the object its argument points
    to: the structure with the pointed-to glyph bytes, or the glyph bytes. *)
Definition answer (r : request) : Type :=
  match r with
  | PIO_FONTRESET => unit
  | KDFONTOP _ => console_font_op
  | GIO_FONTX _ => consolefontdesc
  | PIO_FONTX _ => unit
  | GIO_FONT _ => option buffer
  | PIO_FONT _ => unit
  end.

(** Result of a system call: [Done out] is a return value of 0 with the
    argument object now holding [out]; [Failed e] is a nonzero return value
    with [errno] set to [e]. *)
Inductive reply (A : Type) : Type :=
| Done (out : A)
| Failed (e : Z).
Arguments Done {A} out.
Arguments Failed {A} e.

(** The environment the code runs against: a console driver behind the
    file descriptor and an allocator, both with a state of their own.
    [malloc] returns the address of the new block, [None] for [NULL]. *)
Class Platform (K : Type) : Type := {
  ioctl : Z -> forall r : request, K -> reply (answer r) * K;
  malloc : Z -> K -> option Z * K
}.

(** The calls that leave the process, in the order they are made. *)
Inductive call : Type :=
| Ioctl (fd : Z) (r : request)
| Malloc (size : Z)
| Free (p : Z).

Record world (K : Type) : Type := World {
  errno : Z;
  kernel : K;
  trace : list call
}.
Arguments World {K} errno kernel trace.
Arguments errno {K} w.
Arguments kernel {K} w.
Arguments trace {K} w.

(** ** A state monad over the world *)

Definition M (K A : Type) : Type := world K -> A * world K.

Definition mret {K A} (a : A) : M K A := fun w => (a, w).

Definition mbind {K A B} (m : M K A) (f : A -> M K B) : M K B :=
  fun w => let (a, w') := m w in f a w'.

Declare Scope kfont_scope.
Delimit Scope kfont_scope with kfont.
Notation "x <- m ;; k" := (mbind m (fun x => k))
  (at level 100, m at next level, right associativity) : kfont_scope.
Notation "' pat <- m ;; k" := (mbind m (fun pat => k))
  (at level 100, pat pattern, m at next level, right associativity)
  : kfont_scope.
Notation "m ;; k" := (mbind m (fun _ => k))
  (at level 100, right associativity) : kfont_scope.
Local Open Scope kfont_scope.

Section Primitives.

Context {K : Type} {P : Platform K}.

(** Reading and writing [errno]. *)
Definition get_errno : M K Z := fun w => (errno w, w).

Definition set_errno (e : Z) : M K unit :=
  fun w => (tt, World e (kernel w) (trace w)).

(** [ioctl(fd, r, arg)] *)
Definition sys_ioctl (fd : Z) (r : request) : M K (reply (answer r)) :=
  fun w =>
    let (res, k') := ioctl fd r (kernel w) in
    (res,
     World (match res with Done _ => errno w | Failed e => e end)
           k' (trace w ++ [Ioctl fd r])).

(** [malloc(size)] *)
Definition sys_malloc (size : Z) : M K (option Z) :=
  fun w =>
    let (p, k') := malloc size (kernel w) in
    (p, World (errno w) k' (trace w ++ [Malloc size])).

(** [free(p)] *)
Definition sys_free (p : Z) : M K unit :=
  fun w => (tt, World (errno w) (kernel w) (trace w ++ [Free p])).

End Primitives.

(** ** Memory functions on buffers *)

(** [memset(dst, 0, n)] on a fresh block of [n] bytes. *)
Definition zeroed (n : Z) : buffer := repeat x00 (Z.to_nat n).

(** [memcpy(dst, src, n)]: the first [n] bytes of [dst] become those of
    [src], which has to hold that many. *)
Definition memcpy (dst src : buffer) (n : Z) : buffer :=
  firstn (Z.to_nat n) src ++ skipn (length (firstn (Z.to_nat n) src)) dst.

(** ** Arguments of the read functions *)

(** The objects behind the pointer arguments of the read functions.
    [count] is always dereferenced; [buf], [width] and [height] may be
    null, which is [None]. *)
Record font_args : Type := {
  a_buf : option buffer;
  a_count : Z;
  a_width : option Z;
  a_height : option Z
}.

(** [if (p) *p = v;] *)
Definition store (p : option Z) (v : Z) : option Z :=
  match p with
  | Some _ => Some v
  | None => None
  end.

(** The bytes behind [buf] after the driver has filled them in; there is
    nothing to fill in behind a null pointer. *)
Definition filled (buf out : option buffer) : option buffer :=
  match buf, out with
  | Some _, Some b => Some b
  | _, _ => buf
  end.

(** [cfo] as [get_font_kdfontop] sets it up. *)
Definition get_cfo (a : font_args) : console_font_op :=
  {| cfo_op := KD_FONT_OP_GET;
     cfo_flags := 0;
     cfo_width := 32;
     cfo_height := 32;
     cfo_charcount := a_count a;
     cfo_data := a_buf a |}.

(** [cfd] as [get_font_giofontx] sets it up. *)
Definition get_cfd (a : font_args) : consolefontdesc :=
  {| cfd_charcount := to_ushort (a_count a);
     cfd_charheight := 0;
     cfd_chardata := a_buf a |}.

(** [cfo] as [kfont_put_font] sets it up for the first attempt, once
    [width] and [height] have their defaults. *)
Definition put_cfo (buf : buffer) (count width height : Z) : console_font_op :=
  {| cfo_op := KD_FONT_OP_SET;
     cfo_flags := 0;
     cfo_width := width;
     cfo_height := height;
     cfo_charcount := count;
     cfo_data := Some buf |}.

(** [cfo] after [cfo.data = mybuf; cfo.charcount = ct;]. *)
Definition retry_cfo (cfo : console_font_op) (bytes : buffer) (ct : Z)
  : console_font_op :=
  {| cfo_op := cfo_op cfo;
     cfo_flags := cfo_flags cfo;
     cfo_width := cfo_width cfo;
     cfo_height := cfo_height cfo;
     cfo_charcount := ct;
     cfo_data := Some bytes |}.

(** [cfd] as [kfont_put_font] sets it up; both fields are
    [unsigned short]. *)
Definition put_cfd (buf : buffer) (count height : Z) : consolefontdesc :=
  {| cfd_charcount := to_ushort count;
     cfd_charheight := to_ushort height;
     cfd_chardata := Some buf |}.

(** [if (!width) width = 8;] *)
Definition default_width (width : Z) : Z := if width =? 0 then 8 else width.

(** [if (!height) height = font_charheight(buf, count, width);] *)
Definition default_height (buf : buffer) (count width height : Z) : Z :=
  if height =? 0 then font_charheight buf count width else height.

(** [(count > 256) ? 512 : 256] *)
Definition rounded_count (count : Z) : Z := if count >? 256 then 512 else 256.

(** The scratch buffer after [memset] and [memcpy]. *)
Definition scratch (buf : buffer) (count ct : Z) : buffer :=
  memcpy (zeroed (U32.mul 32 ct)) buf (U32.mul 32 count).

Section Kdfontop.

Context {K : Type} {P : Platform K}.

(** ** kfont_restore_font *)

Definition kfont_restore_font (fd : Z) : M K Z :=
  r <- sys_ioctl fd PIO_FONTRESET ;;
  match r with
  | Failed _ => mret (-1)
  | Done _ => mret 0
  end.

(** ** The read probes *)

Definition get_font_kdfontop (fd : Z) (a : font_args) : M K (Z * font_args) :=
  let cfo := get_cfo a in
  set_errno 0 ;;
  r <- sys_ioctl fd (KDFONTOP cfo) ;;
  match r with
  | Failed _ =>
      e <- get_errno ;;
      if negb (e =? ENOSYS) && negb (e =? EINVAL) then mret (-1, a)
      else mret (1, a)
  | Done cfo' =>
      mret (0, {| a_buf := filled (a_buf a) (cfo_data cfo');
                  a_count := cfo_charcount cfo';
                  a_width := store (a_width a) (cfo_width cfo');
                  a_height := store (a_height a) (cfo_height cfo') |})
  end.

Definition get_font_giofontx (fd : Z) (a : font_args) : M K (Z * font_args) :=
  if a_count a >? USHRT_MAX then mret (-1, a)
  else
    let cfd := get_cfd a in
    set_errno 0 ;;
    r <- sys_ioctl fd (GIO_FONTX cfd) ;;
    match r with
    | Failed _ =>
        e <- get_errno ;;
        if negb (e =? ENOSYS) && negb (e =? EINVAL) then mret (-1, a)
        else mret (1, a)
    | Done cfd' =>
        mret (0, {| a_buf := filled (a_buf a) (cfd_chardata cfd');
                    a_count := cfd_charcount cfd';
                    a_width := store (a_width a) 8;
                    a_height := store (a_height a) (cfd_charheight cfd') |})
    end.

Definition get_font_giofont (fd : Z) (a : font_args) : M K (Z * font_args) :=
  if negb (a_count a =? 256) then mret (-1, a)
  else
    match a_buf a with
    | None => mret (-1, a)
    | Some _ =>
        set_errno 0 ;;
        r <- sys_ioctl fd (GIO_FONT (a_buf a)) ;;
        match r with
        | Failed _ => mret (-1, a)
        | Done buf' =>
            mret (0, {| a_buf := filled (a_buf a) buf';
                        a_count := 256;
                        a_width := store (a_width a) 8;
                        a_height := store (a_height a) 0 |})
        end
    end.

(** ** kfont_get_font and kfont_get_fontsize *)

Definition kfont_get_font (fd : Z) (a : font_args) : M K (Z * font_args) :=
  '(ret, a1) <- get_font_kdfontop fd a ;;
  if ret <=? 0 then mret (ret, a1)
  else
    '(ret, a2) <- get_font_giofontx fd a1 ;;
    if ret <=? 0 then mret (ret, a2)
    else get_font_giofont fd a2.

(** [count = 0] with [buf], [width] and [height] all [NULL]. *)
Definition size_query : font_args :=
  {| a_buf := None; a_count := 0; a_width := None; a_height := None |}.

Definition kfont_get_fontsize (fd : Z) : M K Z :=
  '(ret, a) <- kfont_get_font fd size_query ;;
  if ret =? 0 then mret (a_count a) else mret 256.

(** ** kfont_put_font *)

Definition kfont_put_font (fd : Z) (buf : buffer) (count width height : Z)
  : M K Z :=
  let width := default_width width in
  let height := default_height buf count width height in
  (* First attempt: KDFONTOP *)
  let cfo := put_cfo buf count width height in
  i <- sys_ioctl fd (KDFONTOP cfo) ;;
  match i with
  | Done _ => mret 0
  | Failed _ =>
      e <- get_errno ;;
      if negb (width =? 8) || (negb (e =? ENOSYS) && negb (e =? EINVAL))
      then mret (-1)
      else
        (* Variation on first attempt; [Some r] stands for [return r]. *)
        e <- get_errno ;;
        early <-
          (if (e =? EINVAL) && (width =? 8) && negb (count =? 256)
              && (count <? 512)
           then
             let ct := rounded_count count in
             mybuf <- sys_malloc (U32.mul 32 ct) ;;
             match mybuf with
             | None => mret (Some (-1))
             | Some p =>
                 let cfo := retry_cfo cfo (scratch buf count ct) ct in
                 i <- sys_ioctl fd (KDFONTOP cfo) ;;
                 sys_free p ;;
                 match i with
                 | Done _ => mret (Some 0)
                 | Failed _ => mret None
                 end
             end
           else mret None) ;;
        match early with
        | Some r => mret r
        | None =>
            (* Second attempt: PIO_FONTX *)
            let cfd := put_cfd buf count height in
            i <- sys_ioctl fd (PIO_FONTX cfd) ;;
            match i with
            | Done _ => mret 0
            | Failed _ =>
                e <- get_errno ;;
                if negb (e =? ENOSYS) && negb (e =? EINVAL) then mret (-1)
                else
                  (* Third attempt: PIO_FONT *)
                  i <- sys_ioctl fd (PIO_FONT (Some buf)) ;;
                  match i with
                  | Failed _ => mret (-1)
                  | Done _ => mret 0
                  end
            end
        end
  end.

End Kdfontop.

(** ** Outcomes and traces *)

Inductive outcome : Type := Success | NotSupported | HardError.

(** The value a probe returns, as its caller reads it: 0, positive,
    negative. *)
Definition outcome_of (ret : Z) : outcome :=
  if ret =? 0 then Success
  else if 0 <? ret then NotSupported
  else HardError.

(** The failure codes of a request the kernel does not know. *)
Definition unsupported (e : Z) : Prop := e = ENOSYS \/ e = EINVAL.

Inductive tier : Type := Tier1 | Tier2 | Tier3.

(** The interface generation a call belongs to. *)
Definition tier_of (c : call) : option tier :=
  match c with
  | Ioctl _ (KDFONTOP _) => Some Tier1
  | Ioctl _ (GIO_FONTX _) | Ioctl _ (PIO_FONTX _) => Some Tier2
  | Ioctl _ (GIO_FONT _) | Ioctl _ (PIO_FONT _) => Some Tier3
  | _ => None
  end.

Definition uses (t : tier) (c : call) : bool :=
  match tier_of c, t with
  | Some Tier1, Tier1 | Some Tier2, Tier2 | Some Tier3, Tier3 => true
  | _, _ => false
  end.

(** The calls of a trace that go to one tier. *)
Definition calls_to (t : tier) (tr : list call) : list call :=
  filter (uses t) tr.

(** The calls made between two worlds. *)
Definition calls_since {K : Type} (w w' : world K) : list call :=
  skipn (length (trace w)) (trace w').

(** The value a read probe returns after its [ioctl] failed with code [e]. *)
Definition failure_value (e : Z) : Z :=
  if negb (e =? ENOSYS) && negb (e =? EINVAL) then -1 else 1.

(** A return value [ret] classifies the failure code [e]: not supported
    exactly for [ENOSYS] and [EINVAL], a hard error for every other code. *)
Definition classified (ret e : Z) : Prop :=
  (outcome_of ret = NotSupported <-> unsupported e) /\
  (outcome_of ret = HardError <-> ~ unsupported e).

(** The read probe of each tier and the request it sends. *)
Definition read_probe {K : Type} {P : Platform K} (t : tier)
  : Z -> font_args -> M K (Z * font_args) :=
  match t with
  | Tier1 => get_font_kdfontop
  | Tier2 => get_font_giofontx
  | Tier3 => get_font_giofont
  end.

Definition read_request (t : tier) (a : font_args) : request :=
  match t with
  | Tier1 => KDFONTOP (get_cfo a)
  | Tier2 => GIO_FONTX (get_cfd a)
  | Tier3 => GIO_FONT (a_buf a)
  end.

(** The counts a tier can be asked for. *)
Definition count_ok (t : tier) (a : font_args) : Prop :=
  match t with
  | Tier1 => True
  | Tier2 => a_count a <= USHRT_MAX
  | Tier3 => a_count a = 256
  end.

(** A probe tolerates a null buffer: with a count the tier takes and a
    device that answers the request, the probe succeeds and there is still
    no buffer. *)
Definition null_buffer_tolerated (t : tier) : Prop :=
  forall (K : Type) (P : Platform K) (fd : Z) (a : font_args) (w : world K)
         (out : answer (read_request t a)) (k1 : K),
    a_buf a = None -> count_ok t a ->
    ioctl fd (read_request t a) (kernel w) = (Done out, k1) ->
    exists a' w', read_probe t fd a w = ((0, a'), w') /\ a_buf a' = None.

(** [mybuf] has room for [ct] glyphs of 32 bytes, starts with the
    [32 * count] bytes of [buf] and is zero after them. *)
Definition padded_copy (buf mybuf : buffer) (count ct : Z) : Prop :=
  Z.of_nat (length mybuf) = 32 * ct /\
  (forall j, 0 <= j < 32 * count -> load mybuf j = load buf j) /\
  (forall j, 32 * count <= j < 32 * ct -> load mybuf j = x00).

(** The calls of a write that retries Tier 1 once with the rounded count:
    the first attempt, the allocation of the scratch buffer, the second
    attempt on the scratch buffer with the rounded count, the release of
    the block at [p], and after that requests to Tier 2 and Tier 3 only. *)
Definition retried {K : Type} (fd : Z) (buf : buffer) (count width height : Z)
  (p : Z) (w w' : world K) : Prop :=
  let width' := default_width width in
  let cfo := put_cfo buf count width'
                     (default_height buf count width' height) in
  let ct := rounded_count count in
  exists rest,
    calls_since w w' =
    [Ioctl fd (KDFONTOP cfo);
     Malloc (32 * ct);
     Ioctl fd (KDFONTOP (retry_cfo cfo (scratch buf count ct) ct));
     Free p] ++ rest /\
    Forall (fun c => uses Tier2 c = true \/ uses Tier3 c = true) rest.

(** ** A platform that replays a script

    Each [ioctl] takes the next entry of the script: a failure code, or the
    count, width and height a read reports with the glyph bytes left as they
    are.  An exhausted script fails with [ENOTTY].  [malloc] takes the next
    entry of its own list and fails when there is none. *)

Definition ENOTTY : Z := 25.

Inductive entry : Type :=
| Fails (e : Z)
| Reports (count width height : Z).

Record script : Type := {
  ioctls : list entry;
  mallocs : list (option Z)
}.

Definition reported (r : request) (count width height : Z) : answer r :=
  match r return answer r with
  | PIO_FONTRESET => tt
  | KDFONTOP cfo =>
      {| cfo_op := cfo_op cfo;
         cfo_flags := cfo_flags cfo;
         cfo_width := width;
         cfo_height := height;
         cfo_charcount := count;
         cfo_data := cfo_data cfo |}
  | GIO_FONTX cfd =>
      {| cfd_charcount := count;
         cfd_charheight := height;
         cfd_chardata := cfd_chardata cfd |}
  | PIO_FONTX _ => tt
  | GIO_FONT buf => buf
  | PIO_FONT _ => tt
  end.

Definition script_ioctl (fd : Z) (r : request) (k : script)
  : reply (answer r) * script :=
  match ioctls k with
  | [] => (Failed ENOTTY, k)
  | Fails e :: rest =>
      (Failed e, {| ioctls := rest; mallocs := mallocs k |})
  | Reports c w h :: rest =>
      (Done (reported r c w h), {| ioctls := rest; mallocs := mallocs k |})
  end.

Definition script_malloc (size : Z) (k : script) : option Z * script :=
  match mallocs k with
  | [] => (None, k)
  | p :: rest => (p, {| ioctls := ioctls k; mallocs := rest |})
  end.

#[export] Instance script_platform : Platform script :=
  {| ioctl := script_ioctl; malloc := script_malloc |}.

(** The world at the start of a scripted run. *)
Definition start (replies : list entry) (blocks : list (option Z))
  : world script :=
  World 0 {| ioctls := replies; mallocs := blocks |} [].

(** The three requests of a read, in the order [kfont_get_font] makes
    them, all with the caller's count and buffer. *)
Definition get_calls (fd : Z) (a : font_args) : list call :=
  [Ioctl fd (KDFONTOP (get_cfo a));
   Ioctl fd (GIO_FONTX (get_cfd a));
   Ioctl fd (GIO_FONT (a_buf a))].

(** Two buffers hold the same font of [count] glyphs. *)
Definition same_font (buf buf' : buffer) (count width : Z) : Prop :=
  forall j, 0 <= j < font_bytes count width -> load buf j = load buf' j.

(** A font of two 8x32 glyphs: the first with a dot in row 2, the second
    with a dot in row 9. *)
Definition two_dots : buffer :=
  repeat x00 2 ++ [x10] ++ repeat x00 29 ++
  repeat x00 9 ++ [x01] ++ repeat x00 22.

(** The second and the third attempt of [kfont_put_font] in direct style:
    the value returned and the world left when they start with [errno] at
    [e], the platform in state [k] and the calls [t] made. *)
Definition put_lower {K : Type} {P : Platform K} (fd : Z) (buf : buffer)
  (count height e : Z) (k : K) (t : list call) : Z * world K :=
  let second := Ioctl fd (PIO_FONTX (put_cfd buf count height)) in
  let third := Ioctl fd (PIO_FONT (Some buf)) in
  match ioctl fd (PIO_FONTX (put_cfd buf count height)) k with
  | (Done _, k2) => (0, World e k2 (t ++ [second]))
  | (Failed e2, k2) =>
      if negb (e2 =? ENOSYS) && negb (e2 =? EINVAL)
      then (-1, World e2 k2 (t ++ [second]))
      else
        match ioctl fd (PIO_FONT (Some buf)) k2 with
        | (Done _, k3) => (0, World e2 k3 ((t ++ [second]) ++ [third]))
        | (Failed e3, k3) => (-1, World e3 k3 ((t ++ [second]) ++ [third]))
        end
  end.

(** When [kfont_put_font] tries the rounded count after a first failure
    with code [e]. *)
Definition rounds (e width count : Z) : bool :=
  (e =? EINVAL) && (width =? 8) && negb (count =? 256) && (count <? 512).

(** The calls to the allocator. *)
Definition is_heap_call (c : call) : bool :=
  match c with
  | Malloc _ | Free _ => true
  | Ioctl _ _ => false
  end.

(** ** Running a program by hand

    [run] unfolds the monad down to the system call, [answered H] takes the
    answer of the call from [H]. *)

Ltac run :=
  unfold mbind, mret, set_errno, get_errno, sys_ioctl, sys_malloc, sys_free;
  cbn [errno kernel trace fst snd].

Ltac answered H := rewrite H; cbn [errno kernel trace fst snd].

(** The same on a world given by its three fields. *)
Ltac run_fields :=
  cbv beta iota zeta
      delta [mbind mret set_errno get_errno sys_ioctl sys_malloc sys_free
             errno kernel trace fst snd].

Ltac answered_fields H := rewrite H; run_fields.

(** ** Properties of font_charheight *)

Lemma scan_true body n : forall v,
  scan body v n = true <->
  exists k, 0 <= k < Z.of_nat n /\ body (v + k) = true.
Proof.
  induction n as [|n IH]; intros v; cbn [scan].
  - split; [discriminate | intros (k & Hk & _); lia].
  - destruct (body v) eqn:Hv.
    + split; [intros _ | reflexivity].
      exists 0. rewrite Z.add_0_r. split; [lia | assumption].
    + rewrite IH. split.
      * intros (k & Hk & Hb). exists (k + 1).
        split; [lia |]. now replace (v + (k + 1)) with (v + 1 + k) by lia.
      * intros (k & Hk & Hb).
        assert (k <> 0) by (intros ->; rewrite Z.add_0_r in Hb; congruence).
        exists (k - 1). split; [lia |].
        now replace (v + 1 + (k - 1)) with (v + k) by lia.
Qed.

Lemma scan_false body n v :
  scan body v n = false <->
  forall k, 0 <= k < Z.of_nat n -> body (v + k) = false.
Proof.
  split.
  - intros Hs k Hk. destruct (body (v + k)) eqn:Hb; [| reflexivity].
    assert (scan body v n = true) by (apply scan_true; eauto).
    congruence.
  - intros Hall. destruct (scan body v n) eqn:Hs; [| reflexivity].
    apply scan_true in Hs as (k & Hk & Hb). rewrite Hall in Hb by assumption.
    discriminate.
Qed.

(** *** Arithmetic of the index expression *)

Lemma wrap_small z : U32.ok z -> U32.wrap z = z.
Proof. unfold U32.ok, U32.wrap. intros H. now apply Z.mod_small. Qed.

Lemma glyph_index_wrap bw i h x :
  glyph_index bw i h x = U32.wrap ((32 * i + h - 1) * bw + x).
Proof.
  unfold glyph_index, U32.add, U32.sub, U32.mul, U32.wrap.
  rewrite (Zplus_mod_idemp_l (32 * i) h).
  rewrite (Zminus_mod_idemp_l (32 * i + h) 1).
  rewrite (Zmult_mod_idemp_l (32 * i + h - 1) bw).
  rewrite (Zplus_mod_idemp_l ((32 * i + h - 1) * bw) x).
  reflexivity.
Qed.

Lemma glyph_index_exact bw count i h x :
  count * 32 * bw <= U32.modulus ->
  0 <= i < count -> 1 <= h <= 32 -> 0 <= x < bw ->
  glyph_index bw i h x = (32 * i + h - 1) * bw + x.
Proof.
  intros Hsz Hi Hh Hx. rewrite glyph_index_wrap. apply wrap_small.
  unfold U32.ok. split; [nia |].
  assert ((32 * i + h - 1) * bw + x < count * 32 * bw) by nia.
  lia.
Qed.

Lemma ceil8_pos width : 1 <= width -> 1 <= ceil8 width.
Proof. unfold ceil8. intros H. Z.div_mod_to_equations. lia. Qed.

Lemma bytewidth_of_exact count width :
  1 <= count -> 1 <= width ->
  font_bytes count width <= U32.modulus ->
  bytewidth_of width = ceil8 width.
Proof.
  unfold bytewidth_of, font_bytes, U32.add. intros Hc Hw Hsz.
  pose proof (ceil8_pos width Hw) as Hb.
  rewrite wrap_small; [reflexivity |].
  unfold U32.ok, U32.modulus in *. split; [lia |].
  assert (ceil8 width <= 134217728) by nia.
  unfold ceil8 in *. Z.div_mod_to_equations. lia.
Qed.

(** *** The loops *)

Lemma nonzero_byte b : negb (Byte.eqb b x00) = true <-> b <> x00.
Proof.
  rewrite negb_true_iff. split.
  - intros H. now apply Byte.eqb_false.
  - intros H. destruct (Byte.eqb b x00) eqn:E; [| reflexivity].
    now apply Byte.byte_dec_bl in E.
Qed.

Lemma row_hit_used buf count bw h :
  0 <= count -> 0 <= bw ->
  count * 32 * bw <= U32.modulus -> 1 <= h <= 32 ->
  row_hit buf count bw h = true <-> row_used buf count bw h.
Proof.
  intros Hc Hb Hsz Hh. unfold row_hit, row_used, lit.
  rewrite scan_true. rewrite Z2Nat.id by assumption. split.
  - intros (i & Hi & Hs). apply scan_true in Hs as (x & Hx & Hs).
    rewrite Z2Nat.id in Hx by assumption. cbn [Z.add] in Hs.
    apply nonzero_byte in Hs.
    rewrite (glyph_index_exact bw count) in Hs by lia.
    exists i, x. repeat split; try lia. assumption.
  - intros (i & x & Hi & Hx & Hl). exists i. split; [assumption |].
    apply scan_true. exists x. rewrite Z2Nat.id by assumption.
    split; [assumption |]. cbn [Z.add]. apply nonzero_byte.
    rewrite (glyph_index_exact bw count) by lia. assumption.
Qed.

Lemma rows_down_spec buf count bw n :
  let r := rows_down buf count bw n in
  0 <= r <= Z.of_nat n /\
  (1 <= r -> row_hit buf count bw r = true) /\
  (forall h, r < h <= Z.of_nat n -> row_hit buf count bw h = false).
Proof.
  induction n as [|n IH]; cbn zeta.
  - cbn [rows_down]. split; [cbn; lia |]. split; [lia |].
    intros h Hh. cbn in Hh. lia.
  - cbn [rows_down]. destruct (row_hit buf count bw (Z.of_nat (S n))) eqn:Hr.
    + split; [lia |]. split; [intros _; assumption |]. intros h Hh. lia.
    + cbn zeta in IH. destruct IH as (Hrange & Hhit & Habove).
      split; [lia |]. split; [assumption |].
      intros h Hh. destruct (Z.eq_dec h (Z.of_nat (S n))) as [-> | Hne];
        [assumption | apply Habove; lia].
Qed.

Lemma font_charheight_range buf count width :
  0 <= font_charheight buf count width <= 32.
Proof.
  unfold font_charheight.
  pose proof (rows_down_spec buf count (bytewidth_of width) 32) as H.
  cbn zeta in H. change (Z.of_nat 32) with 32 in H. tauto.
Qed.

Lemma font_charheight_effective buf count width :
  1 <= count -> 1 <= width ->
  font_bytes count width <= U32.modulus ->
  effective_height buf count width (font_charheight buf count width).
Proof.
  intros Hc Hw Hsz. unfold font_charheight.
  rewrite (bytewidth_of_exact count) by assumption.
  pose proof (ceil8_pos width Hw) as Hb.
  pose proof (rows_down_spec buf count (ceil8 width) 32) as (Hr & Hhit & Hab).
  change (Z.of_nat 32) with 32 in *.
  unfold font_bytes in Hsz.
  split; [assumption |]. split.
  - intros H1. apply row_hit_used; try lia. now apply Hhit.
  - intros h Hh Hused. apply row_hit_used in Hused; try lia.
    rewrite Hab in Hused by assumption. discriminate.
Qed.

Lemma effective_height_zero buf count width res :
  1 <= width ->
  effective_height buf count width res ->
  all_zero buf count width -> res = 0.
Proof.
  intros Hw (Hr & Hused & _) Hz.
  destruct (Z.eq_dec res 0) as [| Hne]; [assumption | exfalso].
  destruct Hused as (i & x & Hi & Hx & Hl); [lia |].
  apply Hl, Hz. unfold font_bytes.
  pose proof (ceil8_pos width Hw). nia.
Qed.

Lemma effective_height_only_row buf count width res k r :
  1 <= width -> 0 <= k < count -> 0 <= r < 32 ->
  effective_height buf count width res ->
  only_row buf count width k r -> res = r + 1.
Proof.
  intros Hw Hk Hr (Hres & Hused & Habove) ((x0 & Hx0 & Hlit) & Hrest).
  pose proof (ceil8_pos width Hw) as Hb.
  assert (Hrow : row_used buf count (ceil8 width) (r + 1)).
  { exists k, x0. repeat split; try lia. unfold lit.
    now replace (32 * k + (r + 1) - 1) with (32 * k + r) by lia. }
  assert (Hge : r + 1 <= res).
  { destruct (Z_le_gt_dec (r + 1) res) as [| Hlt]; [assumption |].
    exfalso. apply (Habove (r + 1)); [lia | assumption]. }
  destruct (Z.eq_dec res (r + 1)) as [| Hne]; [assumption | exfalso].
  destruct Hused as (i & x & Hi & Hx & Hl); [lia |].
  apply Hl, Hrest.
  - unfold font_bytes. nia.
  - intros Hin.
    assert (32 * i + res - 1 <> 32 * k + r) by lia.
    destruct (Z_lt_le_dec (32 * i + res - 1) (32 * k + r)); nia.
Qed.

(** C2 (as amended).  When the font fits in [2^32] bytes, so that no index
    computed in [unsigned int] wraps around, [font_charheight] returns the
    largest row of 1..32 in which some glyph has a nonzero byte and 0 when
    there is none; it returns 0 on a font of zero bytes, and [r + 1] when
    row [r] (from 0) of one glyph is the only one with a nonzero byte. *)
Theorem font_charheight_correct buf count width :
  U32.ok count -> U32.ok width ->
  1 <= count -> 1 <= width ->
  font_bytes count width <= Z.of_nat (length buf) ->
  font_bytes count width <= U32.modulus ->
  charheight_correct buf count width.
Proof.
  intros _ _ Hc Hw _ Hsz.
  pose proof (font_charheight_effective buf count width Hc Hw Hsz) as He.
  unfold charheight_correct. cbn zeta. split; [assumption |]. split.
  - now apply effective_height_zero.
  - intros k r Hk Hr. now apply effective_height_only_row.
Qed.

(** The font of one glyph with a dot in row 4 (from 0). *)
Lemma font_charheight_correct_witness : charheight_correct one_dot 1 8.
Proof.
  apply font_charheight_correct.
  - unfold U32.ok, U32.modulus. lia.
  - unfold U32.ok, U32.modulus. lia.
  - lia.
  - lia.
  - vm_compute. discriminate.
  - vm_compute. discriminate.
Defined.

Lemma font_charheight_no_hit buf count width :
  (forall h, 1 <= h <= 32 -> row_hit buf count (bytewidth_of width) h = false) ->
  font_charheight buf count width = 0.
Proof.
  intros Hno. unfold font_charheight.
  pose proof (rows_down_spec buf count (bytewidth_of width) 32)
    as (Hr & Hhit & _).
  change (Z.of_nat 32) with 32 in Hr.
  destruct (Z_lt_le_dec (rows_down buf count (bytewidth_of width) 32) 1)
    as [| Hpos]; [lia | exfalso].
  rewrite Hno in Hhit by lia. specialize (Hhit Hpos). discriminate.
Qed.

Lemma font_charheight_no_columns buf count :
  font_charheight buf count 4294967295 = 0.
Proof.
  apply font_charheight_no_hit. intros h _.
  change (bytewidth_of 4294967295) with 0.
  unfold row_hit. apply scan_false. intros k _. reflexivity.
Qed.

Lemma set_then_zeros_head n : load (set_then_zeros n) 0 = x01.
Proof. reflexivity. Qed.

Lemma set_then_zeros_length n :
  0 <= n -> Z.of_nat (length (set_then_zeros n)) = n + 1.
Proof.
  intros Hn. unfold set_then_zeros. cbn [length]. rewrite repeat_length.
  rewrite Nat2Z.inj_succ, Z2Nat.id; lia.
Qed.

(** C2 (as stated) fails once [width + 7] wraps around: with
    [width = 2^32 - 1] the code computes a row of 0 bytes and scans
    nothing, so it returns 0 on a buffer of [2^34] bytes whose first byte,
    in row 1 of glyph 0, is set. *)
Lemma font_charheight_wraps :
  U32.ok 1 /\ U32.ok 4294967295 /\ 1 <= 1 /\ 1 <= 4294967295 /\
  font_bytes 1 4294967295 <= Z.of_nat (length huge_buf) /\
  ~ charheight_correct huge_buf 1 4294967295.
Proof.
  repeat (split; [unfold U32.ok, U32.modulus; lia |]).
  split.
  - unfold huge_buf. rewrite set_then_zeros_length by lia.
    change (font_bytes 1 4294967295) with 17179869184. lia.
  - intros (He & _). rewrite font_charheight_no_columns in He.
    destruct He as (_ & _ & Habove). apply (Habove 1); [lia |].
    exists 0, 0. split; [lia |].
    split; [change (ceil8 4294967295) with 536870912; lia |].
    unfold lit.
    replace ((32 * 0 + 1 - 1) * ceil8 4294967295 + 0) with 0 by reflexivity.
    unfold huge_buf. rewrite set_then_zeros_head. discriminate.
Qed.

(** ** One run of each read probe *)

Section Probes.

Context {K : Type} {P : Platform K}.

Implicit Types (fd : Z) (a : font_args) (w : world K) (e : Z).

Lemma zeros_then_set_zero n j :
  0 <= j < n -> load (zeros_then_set n) j = x00.
Proof.
  intros Hj. unfold load, zeros_then_set.
  rewrite app_nth1 by (rewrite repeat_length; lia). apply nth_repeat.
Qed.

Lemma zeros_then_set_last n : 0 <= n -> load (zeros_then_set n) n = x01.
Proof.
  intros Hn. unfold load, zeros_then_set.
  rewrite app_nth2 by (rewrite repeat_length; lia).
  rewrite repeat_length, Nat.sub_diag. reflexivity.
Qed.

Lemma zeros_then_set_length n :
  0 <= n -> Z.of_nat (length (zeros_then_set n)) = n + 1.
Proof.
  intros Hn. unfold zeros_then_set.
  rewrite length_app, repeat_length, Nat2Z.inj_add, Z2Nat.id by lia.
  reflexivity.
Qed.

(** The index wraps around as well: in a font of [2^27 + 1] glyphs of
    width 8, glyph [2^27] is read at the offsets of glyph 0, so a dot in
    its last row goes unseen. *)
Lemma font_charheight_aliases :
  font_bytes 134217729 8 = Z.of_nat (length long_buf) /\
  font_charheight long_buf 134217729 8 = 0 /\
  row_used long_buf 134217729 (ceil8 8) 32.
Proof.
  split; [| split].
  - unfold long_buf. rewrite zeros_then_set_length by lia. reflexivity.
  - apply font_charheight_no_hit. intros h _. unfold row_hit.
    apply scan_false. intros i _. apply scan_false. intros x _.
    unfold long_buf. rewrite zeros_then_set_zero; [reflexivity |].
    rewrite glyph_index_wrap. unfold U32.wrap, U32.modulus.
    match goal with
    | |- 0 <= ?z mod ?m < _ =>
        pose proof (Z.mod_pos_bound z m ltac:(lia))
    end.
    lia.
  - exists 134217728, 0. split; [lia |]. split; [cbn; lia |].
    unfold lit, long_buf.
    replace ((32 * 134217728 + 32 - 1) * ceil8 8 + 0) with 4294967327
      by reflexivity.
    rewrite zeros_then_set_last by lia. discriminate.
Qed.

Lemma failure_value_outcome e :
  (unsupported e -> outcome_of (failure_value e) = NotSupported) /\
  (~ unsupported e -> outcome_of (failure_value e) = HardError).
Proof.
  unfold unsupported, failure_value. split.
  - intros [-> | ->]; reflexivity.
  - intros Hn.
    destruct (Z.eqb_spec e ENOSYS) as [-> | H1]; [tauto |].
    destruct (Z.eqb_spec e EINVAL) as [-> | H2]; [tauto |].
    reflexivity.
Qed.


Lemma kdfontop_failed fd a w e k1 :
  ioctl fd (KDFONTOP (get_cfo a)) (kernel w) = (Failed e, k1) ->
  get_font_kdfontop fd a w =
  ((failure_value e, a),
   World e k1 (trace w ++ [Ioctl fd (KDFONTOP (get_cfo a))])).
Proof.
  intros H. unfold get_font_kdfontop. run. answered H. unfold failure_value.
  now destruct (negb (e =? ENOSYS) && negb (e =? EINVAL)).
Qed.

Lemma kdfontop_done fd a w out k1 :
  ioctl fd (KDFONTOP (get_cfo a)) (kernel w) = (Done out, k1) ->
  get_font_kdfontop fd a w =
  ((0, {| a_buf := filled (a_buf a) (cfo_data out);
          a_count := cfo_charcount out;
          a_width := store (a_width a) (cfo_width out);
          a_height := store (a_height a) (cfo_height out) |}),
   World 0 k1 (trace w ++ [Ioctl fd (KDFONTOP (get_cfo a))])).
Proof. intros H. unfold get_font_kdfontop. run. now answered H. Qed.

Lemma giofontx_ceiling fd a w :
  USHRT_MAX < a_count a -> get_font_giofontx fd a w = ((-1, a), w).
Proof.
  intros H. unfold get_font_giofontx.
  destruct (Z.gtb_spec (a_count a) USHRT_MAX); [reflexivity | lia].
Qed.

Lemma giofontx_failed fd a w e k1 :
  a_count a <= USHRT_MAX ->
  ioctl fd (GIO_FONTX (get_cfd a)) (kernel w) = (Failed e, k1) ->
  get_font_giofontx fd a w =
  ((failure_value e, a),
   World e k1 (trace w ++ [Ioctl fd (GIO_FONTX (get_cfd a))])).
Proof.
  intros Hc H. unfold get_font_giofontx.
  destruct (Z.gtb_spec (a_count a) USHRT_MAX); [lia |].
  run. answered H. unfold failure_value.
  now destruct (negb (e =? ENOSYS) && negb (e =? EINVAL)).
Qed.

Lemma giofontx_done fd a w out k1 :
  a_count a <= USHRT_MAX ->
  ioctl fd (GIO_FONTX (get_cfd a)) (kernel w) = (Done out, k1) ->
  get_font_giofontx fd a w =
  ((0, {| a_buf := filled (a_buf a) (cfd_chardata out);
          a_count := cfd_charcount out;
          a_width := store (a_width a) 8;
          a_height := store (a_height a) (cfd_charheight out) |}),
   World 0 k1 (trace w ++ [Ioctl fd (GIO_FONTX (get_cfd a))])).
Proof.
  intros Hc H. unfold get_font_giofontx.
  destruct (Z.gtb_spec (a_count a) USHRT_MAX); [lia |].
  run. now answered H.
Qed.

Lemma giofont_rejects fd a w :
  a_count a <> 256 \/ a_buf a = None ->
  get_font_giofont fd a w = ((-1, a), w).
Proof.
  intros H. unfold get_font_giofont.
  destruct (Z.eqb_spec (a_count a) 256) as [Hc | Hc]; cbn [negb];
    [| reflexivity].
  destruct H as [H | H]; [contradiction |]. now rewrite H.
Qed.

Lemma giofont_failed fd a w b e k1 :
  a_count a = 256 -> a_buf a = Some b ->
  ioctl fd (GIO_FONT (Some b)) (kernel w) = (Failed e, k1) ->
  get_font_giofont fd a w =
  ((-1, a), World e k1 (trace w ++ [Ioctl fd (GIO_FONT (Some b))])).
Proof.
  intros Hc Hb H. unfold get_font_giofont. rewrite Hc, Hb, Z.eqb_refl. cbn [negb].
  run. now answered H.
Qed.

Lemma giofont_done fd a w b out k1 :
  a_count a = 256 -> a_buf a = Some b ->
  ioctl fd (GIO_FONT (Some b)) (kernel w) = (Done out, k1) ->
  get_font_giofont fd a w =
  ((0, {| a_buf := filled (Some b) out;
          a_count := 256;
          a_width := store (a_width a) 8;
          a_height := store (a_height a) 0 |}),
   World 0 k1 (trace w ++ [Ioctl fd (GIO_FONT (Some b))])).
Proof.
  intros Hc Hb H. unfold get_font_giofont. rewrite Hc, Hb, Z.eqb_refl. cbn [negb].
  run. now answered H.
Qed.

End Probes.

(** ** The read cascade *)

Lemma calls_since_app {K : Type} (w : world K) e k l :
  calls_since w (World e k (trace w ++ l)) = l.
Proof.
  unfold calls_since. cbn [trace].
  rewrite skipn_app, skipn_all, Nat.sub_diag. reflexivity.
Qed.

Lemma outcome_of_le ret :
  (ret <=? 0) =
  match outcome_of ret with
  | NotSupported => false
  | _ => true
  end.
Proof.
  unfold outcome_of.
  destruct (Z.eqb_spec ret 0), (Z.ltb_spec 0 ret), (Z.leb_spec ret 0);
    try reflexivity; lia.
Qed.

Lemma failure_value_classified e : classified (failure_value e) e.
Proof.
  destruct (failure_value_outcome e) as [Hs Hh]. unfold classified.
  assert (Hdec : unsupported e \/ ~ unsupported e)
    by (unfold unsupported; lia).
  destruct Hdec as [Hu | Hn].
  - rewrite (Hs Hu). split; split; intros H; try assumption;
      try reflexivity; try discriminate. contradiction.
  - rewrite (Hh Hn). split; split; intros H; try assumption;
      try reflexivity; try discriminate. contradiction.
Qed.

Section Cascade.

Context {K : Type} {P : Platform K}.

Implicit Types (fd : Z) (a : font_args) (w : world K) (e : Z) (t : tier).

(** C4.  When the [ioctl] of the Tier 1 or of the Tier 2 read probe fails
    with code [e], the probe reports the request as not supported exactly
    when [e] is [ENOSYS] or [EINVAL], and a hard error for every other
    code. *)
Theorem read_probe_classifies t fd a w e k1 :
  t = Tier1 \/ (t = Tier2 /\ a_count a <= USHRT_MAX) ->
  ioctl fd (read_request t a) (kernel w) = (Failed e, k1) ->
  classified (fst (fst (read_probe t fd a w))) e.
Proof.
  intros [-> | (-> & Hc)] H; cbn [read_probe read_request] in *.
  - rewrite (kdfontop_failed _ _ _ _ _ H). apply failure_value_classified.
  - rewrite (giofontx_failed _ _ _ _ _ Hc H). apply failure_value_classified.
Qed.

Lemma calls_since_trace w w' l :
  trace w' = trace w ++ l -> calls_since w w' = l.
Proof.
  intros H. unfold calls_since. rewrite H.
  rewrite skipn_app, skipn_all, Nat.sub_diag. reflexivity.
Qed.

Lemma kdfontop_trace fd a w :
  trace (snd (get_font_kdfontop fd a w)) =
  trace w ++ [Ioctl fd (KDFONTOP (get_cfo a))].
Proof.
  destruct (ioctl fd (KDFONTOP (get_cfo a)) (kernel w)) as [[out | e] k1] eqn:H.
  - now rewrite (kdfontop_done _ _ _ _ _ H).
  - now rewrite (kdfontop_failed _ _ _ _ _ H).
Qed.

Lemma giofontx_trace fd a w :
  exists l, trace (snd (get_font_giofontx fd a w)) = trace w ++ l /\
            (l = [] \/ l = [Ioctl fd (GIO_FONTX (get_cfd a))]).
Proof.
  destruct (Z_le_gt_dec (a_count a) USHRT_MAX) as [Hc | Hc].
  - exists [Ioctl fd (GIO_FONTX (get_cfd a))]. split; [| now right].
    destruct (ioctl fd (GIO_FONTX (get_cfd a)) (kernel w))
      as [[out | e] k1] eqn:H.
    + now rewrite (giofontx_done _ _ _ _ _ Hc H).
    + now rewrite (giofontx_failed _ _ _ _ _ Hc H).
  - exists []. split; [| now left].
    rewrite giofontx_ceiling by lia. cbn [snd]. now rewrite app_nil_r.
Qed.

Lemma giofont_trace fd a w :
  exists l, trace (snd (get_font_giofont fd a w)) = trace w ++ l /\
            (l = [] \/ l = [Ioctl fd (GIO_FONT (a_buf a))]).
Proof.
  destruct (Z.eq_dec (a_count a) 256) as [Hc | Hc].
  - destruct (a_buf a) as [b |] eqn:Hb.
    + exists [Ioctl fd (GIO_FONT (Some b))]. split; [| now right].
      destruct (ioctl fd (GIO_FONT (Some b)) (kernel w))
        as [[out | e] k1] eqn:H.
      * now rewrite (giofont_done _ _ _ _ _ _ Hc Hb H).
      * now rewrite (giofont_failed _ _ _ _ _ _ Hc Hb H).
    + exists []. split; [| now left].
      rewrite giofont_rejects by now right. cbn [snd]. now rewrite app_nil_r.
  - exists []. split; [| now left].
    rewrite giofont_rejects by now left. cbn [snd]. now rewrite app_nil_r.
Qed.

(** The calls made up to the end of each stage of the cascade. *)
Lemma cascade_calls fd a w :
  let '(r1, a1, w1) := get_font_kdfontop fd a w in
  let '(r2, a2, w2) := get_font_giofontx fd a1 w1 in
  let first := Ioctl fd (KDFONTOP (get_cfo a)) in
  exists l2 l3,
    (l2 = [] \/ l2 = [Ioctl fd (GIO_FONTX (get_cfd a1))]) /\
    (l3 = [] \/ l3 = [Ioctl fd (GIO_FONT (a_buf a2))]) /\
    calls_since w w1 = [first] /\
    calls_since w w2 = first :: l2 /\
    calls_since w (snd (get_font_giofont fd a2 w2)) = first :: l2 ++ l3.
Proof.
  pose proof (kdfontop_trace fd a w) as T1.
  destruct (get_font_kdfontop fd a w) as [[r1 a1] w1] eqn:E1.
  pose proof (giofontx_trace fd a1 w1) as (l2 & T2 & Hl2).
  destruct (get_font_giofontx fd a1 w1) as [[r2 a2] w2] eqn:E2.
  pose proof (giofont_trace fd a2 w2) as (l3 & T3 & Hl3).
  cbn [snd] in T1, T2. cbn zeta. exists l2, l3.
  split; [exact Hl2 |]. split; [exact Hl3 |].
  split; [| split]; apply calls_since_trace.
  - exact T1.
  - rewrite T2, T1, <- app_assoc. reflexivity.
  - rewrite T3, T2, T1, <- !app_assoc. reflexivity.
Qed.

Lemma kfont_get_font_eq fd a w :
  kfont_get_font fd a w =
  let '(r1, a1, w1) := get_font_kdfontop fd a w in
  if r1 <=? 0 then (r1, a1, w1)
  else
    let '(r2, a2, w2) := get_font_giofontx fd a1 w1 in
    if r2 <=? 0 then (r2, a2, w2) else get_font_giofont fd a2 w2.
Proof.
  unfold kfont_get_font, mbind.
  destruct (get_font_kdfontop fd a w) as [[r1 a1] w1].
  destruct (r1 <=? 0); [reflexivity |].
  destruct (get_font_giofontx fd a1 w1) as [[r2 a2] w2].
  destruct (r2 <=? 0); reflexivity.
Qed.

(** C3.  [kfont_get_font] calls Tier 1 first and returns its result when it
    is a success or a hard error; only when Tier 1 is not supported does it
    call Tier 2, under the same rule; only when Tier 2 is not supported
    does it call Tier 3, whose result it returns as it is.  No Tier 3
    request is made when Tier 2 succeeds. *)
Theorem kfont_get_font_cascade fd a w :
  let res := kfont_get_font fd a w in
  let '(r1, a1, w1) := get_font_kdfontop fd a w in
  let '(r2, a2, w2) := get_font_giofontx fd a1 w1 in
  (exists rest,
      calls_since w (snd res) = Ioctl fd (KDFONTOP (get_cfo a)) :: rest) /\
  match outcome_of r1 with
  | NotSupported =>
      match outcome_of r2 with
      | NotSupported => res = get_font_giofont fd a2 w2
      | _ => res = (r2, a2, w2) /\
             calls_to Tier3 (calls_since w (snd res)) = []
      end
  | _ => res = (r1, a1, w1) /\
         calls_to Tier2 (calls_since w (snd res)) = [] /\
         calls_to Tier3 (calls_since w (snd res)) = []
  end.
Proof.
  cbn zeta. rewrite kfont_get_font_eq.
  pose proof (cascade_calls fd a w) as Hc.
  destruct (get_font_kdfontop fd a w) as [[r1 a1] w1].
  destruct (get_font_giofontx fd a1 w1) as [[r2 a2] w2].
  destruct Hc as (l2 & l3 & Hl2 & Hl3 & H1 & H2 & H3).
  assert (Hl2' : calls_to Tier3 l2 = [])
    by (destruct Hl2 as [-> | ->]; reflexivity).
  rewrite !outcome_of_le.
  destruct (outcome_of r1); cbn [snd];
    try (split; [exists []; assumption |];
         split; [reflexivity |]; rewrite H1; split; reflexivity).
  destruct (outcome_of r2); cbn [snd].
  - split; [exists l2; assumption |]. split; [reflexivity |].
    rewrite H2. cbn. assumption.
  - split; [| reflexivity]. exists (l2 ++ l3). assumption.
  - split; [exists l2; assumption |]. split; [reflexivity |].
    rewrite H2. cbn. assumption.
Qed.

Lemma failure_value_nonzero e : failure_value e <> 0.
Proof.
  unfold failure_value.
  destruct (negb (e =? ENOSYS) && negb (e =? EINVAL)); discriminate.
Qed.

Lemma outcome_of_nonzero ret : outcome_of ret <> Success <-> ret <> 0.
Proof.
  unfold outcome_of. destruct (Z.eqb_spec ret 0) as [-> | H].
  - tauto.
  - split; [tauto |]. intros _. destruct (0 <? ret); discriminate.
Qed.

(** A read probe that does not return 0 has stored nothing. *)
Lemma read_probe_keeps t fd a w :
  fst (fst (read_probe t fd a w)) <> 0 ->
  snd (fst (read_probe t fd a w)) = a.
Proof.
  destruct t; cbn [read_probe].
  - destruct (ioctl fd (KDFONTOP (get_cfo a)) (kernel w))
      as [[out | e] k1] eqn:H.
    + rewrite (kdfontop_done _ _ _ _ _ H). cbn. contradiction.
    + now rewrite (kdfontop_failed _ _ _ _ _ H).
  - destruct (Z_le_gt_dec (a_count a) USHRT_MAX) as [Hc | Hc].
    + destruct (ioctl fd (GIO_FONTX (get_cfd a)) (kernel w))
        as [[out | e] k1] eqn:H.
      * rewrite (giofontx_done _ _ _ _ _ Hc H). cbn. contradiction.
      * now rewrite (giofontx_failed _ _ _ _ _ Hc H).
    + now rewrite giofontx_ceiling by lia.
  - destruct (Z.eq_dec (a_count a) 256) as [Hc | Hc];
      [| now rewrite giofont_rejects by now left].
    destruct (a_buf a) as [b |] eqn:Hb;
      [| now rewrite giofont_rejects by now right].
    destruct (ioctl fd (GIO_FONT (Some b)) (kernel w))
      as [[out | e] k1] eqn:H.
    + rewrite (giofont_done _ _ _ _ _ _ Hc Hb H). cbn. contradiction.
    + now rewrite (giofont_failed _ _ _ _ _ _ Hc Hb H).
Qed.

(** [kfont_get_font] that does not return 0 has stored nothing. *)
Lemma kfont_get_font_keeps fd a w :
  fst (fst (kfont_get_font fd a w)) <> 0 ->
  snd (fst (kfont_get_font fd a w)) = a.
Proof.
  rewrite kfont_get_font_eq.
  pose proof (read_probe_keeps Tier1 fd a w) as K1. cbn [read_probe] in K1.
  destruct (get_font_kdfontop fd a w) as [[r1 a1] w1]. cbn [fst snd] in K1.
  destruct (Z.leb_spec r1 0) as [Hr1 | Hr1]; cbn [fst snd]; [exact K1 |].
  rewrite K1 by lia.
  pose proof (read_probe_keeps Tier2 fd a w1) as K2. cbn [read_probe] in K2.
  destruct (get_font_giofontx fd a w1) as [[r2 a2] w2]. cbn [fst snd] in K2.
  destruct (Z.leb_spec r2 0) as [Hr2 | Hr2]; cbn [fst snd]; [exact K2 |].
  rewrite K2 by lia.
  exact (read_probe_keeps Tier3 fd a w2).
Qed.

(** C9.  When [kfont_get_font] returns a hard error, the objects behind
    [count], [width] and [height] hold what they held before the call. *)
Theorem kfont_get_font_error_keeps fd a w :
  outcome_of (fst (fst (kfont_get_font fd a w))) = HardError ->
  let a' := snd (fst (kfont_get_font fd a w)) in
  a_count a' = a_count a /\ a_width a' = a_width a /\
  a_height a' = a_height a.
Proof.
  intros H. cbn zeta. rewrite kfont_get_font_keeps; [tauto |].
  apply outcome_of_nonzero. rewrite H. discriminate.
Qed.

Lemma kfont_get_fontsize_eq fd w :
  kfont_get_fontsize fd w =
  let '(r, a', w') := kfont_get_font fd size_query w in
  (if r =? 0 then a_count a' else 256, w').
Proof.
  unfold kfont_get_fontsize, mbind, mret.
  destruct (kfont_get_font fd size_query w) as [[r a'] w'].
  destruct (r =? 0); reflexivity.
Qed.

(** C7.  [kfont_get_fontsize] returns the count that [kfont_get_font]
    reports for its query when that succeeds, and 256 in every other case;
    its result is a count and nothing else. *)
Theorem kfont_get_fontsize_fallback fd w :
  let '(r, a', w') := kfont_get_font fd size_query w in
  kfont_get_fontsize fd w =
  (match outcome_of r with
   | Success => a_count a'
   | _ => 256
   end, w').
Proof.
  rewrite kfont_get_fontsize_eq. unfold outcome_of.
  destruct (kfont_get_font fd size_query w) as [[r a'] w'].
  destruct (r =? 0); [reflexivity |]. destruct (0 <? r); reflexivity.
Qed.

(** Without a buffer no request reaches Tier 3. *)
Lemma kfont_get_font_no_buffer fd a w :
  a_buf a = None ->
  calls_to Tier3 (calls_since w (snd (kfont_get_font fd a w))) = [].
Proof.
  intros Hb. rewrite kfont_get_font_eq.
  pose proof (cascade_calls fd a w) as Hc.
  pose proof (read_probe_keeps Tier1 fd a w) as K1. cbn [read_probe] in K1.
  destruct (get_font_kdfontop fd a w) as [[r1 a1] w1]. cbn [fst snd] in K1.
  pose proof (read_probe_keeps Tier2 fd a1 w1) as K2. cbn [read_probe] in K2.
  destruct (get_font_giofontx fd a1 w1) as [[r2 a2] w2]. cbn [fst snd] in K2.
  destruct Hc as (l2 & l3 & Hl2 & _ & H1 & H2 & _).
  assert (Hl2' : calls_to Tier3 l2 = [])
    by (destruct Hl2 as [-> | ->]; reflexivity).
  destruct (Z.leb_spec r1 0); cbn [snd]; [now rewrite H1 |].
  destruct (Z.leb_spec r2 0); cbn [snd]; [rewrite H2; exact Hl2' |].
  rewrite giofont_rejects.
  - cbn [snd]. rewrite H2. exact Hl2'.
  - right. rewrite K2, K1 by lia. exact Hb.
Qed.

(** C10.  [kfont_get_fontsize] starts with a [KDFONTOP] query for 0 glyphs
    and no buffer; the Tier 3 probe rejects that query, so no run makes a
    Tier 3 request.  When the kernel supports neither Tier 1 nor Tier 2,
    the calls are the two requests that fail and the result is 256. *)
Theorem kfont_get_fontsize_skips_tier3 fd w :
  let res := kfont_get_fontsize fd w in
  (exists rest,
      calls_since w (snd res) =
      Ioctl fd (KDFONTOP {| cfo_op := KD_FONT_OP_GET; cfo_flags := 0;
                            cfo_width := 32; cfo_height := 32;
                            cfo_charcount := 0; cfo_data := None |})
      :: rest) /\
  calls_to Tier3 (calls_since w (snd res)) = [] /\
  (forall w3, get_font_giofont fd size_query w3 = (-1, size_query, w3)) /\
  (forall e1 k1 e2 k2,
      ioctl fd (KDFONTOP (get_cfo size_query)) (kernel w) = (Failed e1, k1) ->
      unsupported e1 ->
      ioctl fd (GIO_FONTX (get_cfd size_query)) k1 = (Failed e2, k2) ->
      unsupported e2 ->
      fst res = 256 /\
      calls_since w (snd res) =
      [Ioctl fd (KDFONTOP (get_cfo size_query));
       Ioctl fd (GIO_FONTX (get_cfd size_query))]).
Proof.
  cbn zeta.
  assert (Hw : snd (kfont_get_fontsize fd w) =
               snd (kfont_get_font fd size_query w)).
  { rewrite kfont_get_fontsize_eq.
    now destruct (kfont_get_font fd size_query w) as [[r a'] w']. }
  rewrite Hw. split; [| split; [| split]].
  - rewrite kfont_get_font_eq.
    pose proof (cascade_calls fd size_query w) as Hc.
    destruct (get_font_kdfontop fd size_query w) as [[r1 a1] w1].
    destruct (get_font_giofontx fd a1 w1) as [[r2 a2] w2].
    destruct Hc as (l2 & l3 & _ & _ & H1 & H2 & H3).
    destruct (r1 <=? 0); [exists []; exact H1 |].
    destruct (r2 <=? 0); [exists l2; exact H2 | exists (l2 ++ l3); exact H3].
  - now apply kfont_get_font_no_buffer.
  - intros w3. apply giofont_rejects. now right.
  - intros e1 k1 e2 k2 H1 U1 H2 U2.
    assert (Hc : a_count size_query <= USHRT_MAX) by (cbn; discriminate).
    assert (Hrun : kfont_get_font fd size_query w =
                   (-1, size_query,
                    World e2 k2
                      ((trace w ++ [Ioctl fd (KDFONTOP (get_cfo size_query))])
                         ++ [Ioctl fd (GIO_FONTX (get_cfd size_query))]))).
    { rewrite kfont_get_font_eq, (kdfontop_failed _ _ _ _ _ H1).
      destruct (failure_value_outcome e1) as [O1 _].
      destruct (failure_value_outcome e2) as [O2 _].
      rewrite outcome_of_le, (O1 U1).
      rewrite (giofontx_failed fd size_query _ e2 k2 Hc)
        by (cbn [kernel]; exact H2).
      rewrite outcome_of_le, (O2 U2).
      apply giofont_rejects. now right. }
    rewrite kfont_get_fontsize_eq, Hrun. cbn [fst snd]. split; [reflexivity |].
    apply calls_since_trace. cbn [trace]. rewrite <- app_assoc. reflexivity.
Qed.

(** C5 (as amended).  With a null buffer, the Tier 1 and the Tier 2 probe
    pass the null pointer to the device and, when the device answers,
    return 0 with the count and the geometry it reports; there is still no
    buffer.  The Tier 3 probe returns a hard error for a null buffer
    without any request to the device and reports nothing. *)
Theorem read_probes_null_buffer fd a w :
  a_buf a = None ->
  (cfo_data (get_cfo a) = None /\
   forall out k1,
     ioctl fd (KDFONTOP (get_cfo a)) (kernel w) = (Done out, k1) ->
     get_font_kdfontop fd a w =
     (0, {| a_buf := None;
            a_count := cfo_charcount out;
            a_width := store (a_width a) (cfo_width out);
            a_height := store (a_height a) (cfo_height out) |},
      World 0 k1 (trace w ++ [Ioctl fd (KDFONTOP (get_cfo a))]))) /\
  (cfd_chardata (get_cfd a) = None /\
   forall out k1,
     a_count a <= USHRT_MAX ->
     ioctl fd (GIO_FONTX (get_cfd a)) (kernel w) = (Done out, k1) ->
     get_font_giofontx fd a w =
     (0, {| a_buf := None;
            a_count := cfd_charcount out;
            a_width := store (a_width a) 8;
            a_height := store (a_height a) (cfd_charheight out) |},
      World 0 k1 (trace w ++ [Ioctl fd (GIO_FONTX (get_cfd a))]))) /\
  get_font_giofont fd a w = (-1, a, w).
Proof.
  intros Hb. repeat split.
  - exact Hb.
  - intros out k1 H. rewrite (kdfontop_done _ _ _ _ _ H), Hb. reflexivity.
  - exact Hb.
  - intros out k1 Hc H. rewrite (giofontx_done _ _ _ _ _ Hc H), Hb.
    reflexivity.
  - apply giofont_rejects. now right.
Qed.

End Cascade.

(** The Tier 2 probe on a kernel that answers [ENOSYS]. *)
Lemma read_probe_classifies_witness :
  classified
    (fst (fst (read_probe Tier2 3 size_query (start [Fails ENOSYS] [])))) ENOSYS.
Proof.
  apply (read_probe_classifies Tier2 3 size_query (start [Fails ENOSYS] [])
           ENOSYS {| ioctls := []; mallocs := [] |}).
  - right. split; [reflexivity |]. cbn. discriminate.
  - reflexivity.
Defined.

(** A read that fails at once with [EIO]. *)
Lemma kfont_get_font_error_keeps_witness :
  let a := {| a_buf := None; a_count := 512;
              a_width := Some 0; a_height := Some 0 |} in
  let a' := snd (fst (kfont_get_font 3 a (start [Fails 5] []))) in
  a_count a' = 512 /\ a_width a' = Some 0 /\ a_height a' = Some 0.
Proof.
  apply (kfont_get_font_error_keeps 3
           {| a_buf := None; a_count := 512;
              a_width := Some 0; a_height := Some 0 |}
           (start [Fails 5] [])).
  reflexivity.
Defined.

(** A kernel that knows neither [KDFONTOP] nor [GIO_FONTX]. *)
Lemma kfont_get_fontsize_skips_tier3_witness :
  fst (kfont_get_fontsize 3
         (start [Fails ENOSYS; Fails EINVAL; Reports 256 8 16] [])) = 256.
Proof.
  destruct (kfont_get_fontsize_skips_tier3 3
              (start [Fails ENOSYS; Fails EINVAL; Reports 256 8 16] []))
    as (_ & _ & _ & H).
  apply (H ENOSYS {| ioctls := [Fails EINVAL; Reports 256 8 16];
                     mallocs := [] |}
           EINVAL {| ioctls := [Reports 256 8 16]; mallocs := [] |}).
  - reflexivity.
  - left. reflexivity.
  - reflexivity.
  - right. reflexivity.
Defined.

(** The Tier 1 probe without a buffer on a console of 512 glyphs. *)
Lemma read_probes_null_buffer_witness :
  get_font_kdfontop 3 size_query (start [Reports 512 8 16] []) =
  (0, {| a_buf := None; a_count := 512; a_width := None; a_height := None |},
   World 0 {| ioctls := []; mallocs := [] |}
         [Ioctl 3 (KDFONTOP (get_cfo size_query))]).
Proof.
  destruct (read_probes_null_buffer 3 size_query
              (start [Reports 512 8 16] []) eq_refl) as ((_ & H) & _).
  apply (H (reported (KDFONTOP (get_cfo size_query)) 512 8 16)
           {| ioctls := []; mallocs := [] |}).
  reflexivity.
Defined.

(** C5 (as stated) fails for Tier 3: asked for 256 glyphs without a buffer,
    on a device that answers the request, [get_font_giofont] returns -1. *)
Lemma giofont_needs_buffer : ~ forall t, null_buffer_tolerated t.
Proof.
  intros H.
  destruct (H Tier3 script script_platform 3
              {| a_buf := None; a_count := 256;
                 a_width := Some 0; a_height := Some 0 |}
              (start [Reports 256 8 0] []) None
              {| ioctls := []; mallocs := [] |}
              eq_refl eq_refl eq_refl) as (a' & w' & Heq & _).
  discriminate Heq.
Qed.

(** ** The scratch buffer *)

Lemma skipn_repeat {A : Type} (x : A) n m :
  skipn n (repeat x m) = repeat x (m - n).
Proof.
  revert m. induction n as [|n IH]; intros m.
  - now rewrite Nat.sub_0_r.
  - destruct m as [|m]; [reflexivity | apply IH].
Qed.

Lemma rounded_count_cases count :
  (rounded_count count = 256 /\ count <= 256) \/
  (rounded_count count = 512 /\ 256 < count).
Proof.
  unfold rounded_count.
  destruct (Z.gtb_spec count 256); [right | left]; split;
    (reflexivity || lia).
Qed.

Lemma mul32_small z : 0 <= z <= 512 -> U32.mul 32 z = 32 * z.
Proof.
  intros H. unfold U32.mul. apply wrap_small.
  unfold U32.ok, U32.modulus. lia.
Qed.

Lemma scratch_padded buf count :
  0 <= count < 512 ->
  32 * count <= Z.of_nat (length buf) ->
  padded_copy buf (scratch buf count (rounded_count count)) count
              (rounded_count count).
Proof.
  intros Hc Hlen.
  assert (Hct : count <= rounded_count count <= 512)
    by (destruct (rounded_count_cases count) as [[-> ?] | [-> ?]]; lia).
  unfold scratch, memcpy, zeroed. rewrite !mul32_small by lia.
  set (n := Z.to_nat (32 * count)). set (m := Z.to_nat (32 * rounded_count count)).
  assert (Hn : (n <= length buf)%nat) by lia.
  rewrite firstn_length_le, skipn_repeat by exact Hn.
  unfold padded_copy, load. split; [| split].
  - rewrite length_app, firstn_length_le, repeat_length by exact Hn. lia.
  - intros j Hj. rewrite app_nth1 by (rewrite firstn_length_le; lia).
    rewrite nth_firstn.
    destruct (Nat.ltb_spec (Z.to_nat j) n); [reflexivity | lia].
  - intros j Hj. rewrite app_nth2 by (rewrite firstn_length_le; lia).
    apply nth_repeat.
Qed.

Lemma lower_tiers_only rest :
  Forall (fun c => uses Tier2 c = true \/ uses Tier3 c = true) rest ->
  calls_to Tier1 rest = [].
Proof.
  induction 1 as [| c rest Hc _ IH]; [reflexivity |].
  cbn [calls_to filter]. fold (calls_to Tier1 rest). rewrite IH.
  destruct c as [fd r | |]; [| destruct Hc; discriminate ..].
  destruct r; try reflexivity; destruct Hc; discriminate.
Qed.

Lemma retried_twice {K : Type} fd buf count width height p (w w' : world K) :
  retried fd buf count width height p w w' ->
  length (calls_to Tier1 (calls_since w w')) = 2%nat.
Proof.
  intros (rest & -> & Hrest). unfold calls_to. rewrite filter_app.
  fold (calls_to Tier1 rest). now rewrite lower_tiers_only.
Qed.

(** ** kfont_put_font *)

Section PutFont.

Context {K : Type} {P : Platform K}.

Implicit Types (fd : Z) (buf : buffer) (w : world K) (e : Z).

(** C8.  With a width other than 8 (after the default for 0), a failure of
    the Tier 1 request, of whatever code, ends [kfont_put_font]: it
    returns -1 and that request is the only call it has made; there is no
    retry and no Tier 2 or Tier 3 request. *)
Theorem put_font_other_width fd buf count width height w e k1 :
  let width' := default_width width in
  let cfo := put_cfo buf count width'
                     (default_height buf count width' height) in
  width' <> 8 ->
  ioctl fd (KDFONTOP cfo) (kernel w) = (Failed e, k1) ->
  kfont_put_font fd buf count width height w =
  (-1, World e k1 (trace w ++ [Ioctl fd (KDFONTOP cfo)])).
Proof.
  cbn zeta. intros Hw H. unfold kfont_put_font.
  destruct w as [e0 k0 t0]. cbn [kernel] in H. run_fields.
  answered_fields H.
  destruct (Z.eqb_spec (default_width width) 8); [contradiction |].
  reflexivity.
Qed.

(** C1 (as amended).  With width 8, a count below 512 other than 256, a
    buffer of at least [32 * count] bytes, a Tier 1 request that fails with
    [EINVAL] and an allocation that succeeds, [kfont_put_font] repeats the
    Tier 1 request once, with the count rounded up to 256 or to 512 and a
    scratch buffer that starts with the [32 * count] bytes of the caller's
    buffer and is zero after them; the scratch buffer is freed right after
    the second request, and a second request that succeeds ends the call
    with 0. *)
Theorem put_font_retries_rounded fd buf count width height w k1 p k2 :
  let width' := default_width width in
  let cfo := put_cfo buf count width'
                     (default_height buf count width' height) in
  let ct := rounded_count count in
  let again := KDFONTOP (retry_cfo cfo (scratch buf count ct) ct) in
  let res := kfont_put_font fd buf count width height w in
  U32.ok count -> width' = 8 -> count <> 256 -> count < 512 ->
  32 * count <= Z.of_nat (length buf) ->
  ioctl fd (KDFONTOP cfo) (kernel w) = (Failed EINVAL, k1) ->
  malloc (32 * ct) k1 = (Some p, k2) ->
  ((ct = 256 /\ count <= 256) \/ (ct = 512 /\ 256 < count)) /\
  padded_copy buf (scratch buf count ct) count ct /\
  retried fd buf count width height p w (snd res) /\
  length (calls_to Tier1 (calls_since w (snd res))) = 2%nat /\
  (forall out k3,
      ioctl fd again k2 = (Done out, k3) ->
      res = (0, World EINVAL k3
                  (trace w ++ [Ioctl fd (KDFONTOP cfo); Malloc (32 * ct);
                               Ioctl fd again; Free p]))).
Proof.
  cbn zeta. intros Hok Hw Hne Hlt Hlen H1 Hm.
  assert (Hc : 0 <= count < 512) by (unfold U32.ok in Hok; lia).
  split; [apply rounded_count_cases |].
  split; [now apply scratch_padded |].
  assert (Hct : 0 <= rounded_count count <= 512)
    by (destruct (rounded_count_cases count) as [[-> ?] | [-> ?]]; lia).
  match goal with
  | |- ?R /\ _ /\ ?S =>
      assert (Hmain : R /\ S); [| split; [apply Hmain |];
                                  split; [| apply Hmain];
                                  now apply (retried_twice _ _ _ _ _ _ _ _
                                               (proj1 Hmain))]
  end.
  unfold retried, kfont_put_font, calls_since. rewrite Hw in *.
  destruct w as [e0 k0 t0]. cbn [kernel] in H1. run_fields.
  answered_fields H1.
  change (8 =? 8) with true.
  change (EINVAL =? EINVAL) with true. change (EINVAL =? ENOSYS) with false.
  cbn [negb andb orb]. run_fields.
  change (EINVAL =? EINVAL) with true.
  destruct (Z.eqb_spec count 256); [contradiction |].
  destruct (Z.ltb_spec count 512); [| lia]. cbn [negb andb]. run_fields.
  rewrite (mul32_small (rounded_count count)) by exact Hct.
  answered_fields Hm.
  set (first := KDFONTOP (put_cfo _ _ _ _)).
  set (again := KDFONTOP (retry_cfo _ _ _)).
  set (second := PIO_FONTX _).
  assert (Hskip : forall l, skipn (length t0) (t0 ++ l) = l).
  { intros l. rewrite skipn_app, skipn_all, Nat.sub_diag. reflexivity. }
  destruct (ioctl fd again k2) as [[out | e2] k3] eqn:H2; run_fields.
  { split.
    - exists []. split; [| constructor].
      rewrite <- !app_assoc. apply Hskip.
    - intros out' k3' Heq. injection Heq as _ <-.
      rewrite <- !app_assoc. reflexivity. }
  split; [| intros out k3' Heq; discriminate Heq].
  destruct (ioctl fd second k3) as [[out3 | e3] k4] eqn:H3; run_fields.
  { exists [Ioctl fd second]. split.
    - rewrite <- !app_assoc. apply Hskip.
    - repeat constructor. }
  destruct (negb (e3 =? ENOSYS) && negb (e3 =? EINVAL)).
  { exists [Ioctl fd second]. split.
    - rewrite <- !app_assoc. apply Hskip.
    - repeat constructor. }
  exists [Ioctl fd second; Ioctl fd (PIO_FONT (Some buf))]. split.
  - destruct (ioctl fd (PIO_FONT (Some buf)) k4) as [[out4 | e4] k5];
      run_fields; rewrite <- !app_assoc; apply Hskip.
  - constructor; [left; reflexivity |].
    constructor; [right; reflexivity | constructor].
Qed.

(** Past the variation, the second attempt is made with [count] and
    [height] cut to 16 bits, whatever their value. *)
Lemma put_font_second_attempt fd buf count width height w e k1 :
  let width' := default_width width in
  let height' := default_height buf count width' height in
  let cfo := put_cfo buf count width' height' in
  width' = 8 -> 512 <= count -> unsupported e ->
  ioctl fd (KDFONTOP cfo) (kernel w) = (Failed e, k1) ->
  exists rest,
    calls_since w (snd (kfont_put_font fd buf count width height w)) =
    [Ioctl fd (KDFONTOP cfo);
     Ioctl fd (PIO_FONTX {| cfd_charcount := count mod 65536;
                            cfd_charheight := height' mod 65536;
                            cfd_chardata := Some buf |})] ++ rest.
Proof.
  cbn zeta. intros Hw Hc He H1.
  unfold kfont_put_font, calls_since. rewrite Hw in *.
  destruct w as [e0 k0 t0]. cbn [kernel] in H1. run_fields.
  answered_fields H1.
  assert (Hskip : forall l, skipn (length t0) (t0 ++ l) = l).
  { intros l. rewrite skipn_app, skipn_all, Nat.sub_diag. reflexivity. }
  assert (Hsup : negb (e =? ENOSYS) && negb (e =? EINVAL) = false).
  { destruct He as [-> | ->]; reflexivity. }
  change (8 =? 8) with true. rewrite Hsup. cbn [negb orb]. run_fields.
  destruct (Z.ltb_spec count 512); [lia |].
  rewrite !andb_false_r. run_fields.
  set (second := PIO_FONTX _).
  destruct (ioctl fd second k1) as [[out3 | e3] k4]; run_fields.
  { exists []. rewrite <- !app_assoc. apply Hskip. }
  destruct (negb (e3 =? ENOSYS) && negb (e3 =? EINVAL)).
  { exists []. rewrite <- !app_assoc. apply Hskip. }
  exists [Ioctl fd (PIO_FONT (Some buf))].
  destruct (ioctl fd (PIO_FONT (Some buf)) k4) as [[out4 | e4] k5];
    run_fields; rewrite <- !app_assoc; apply Hskip.
Qed.

End PutFont.

(** A glyph of width 16 on a kernel without [KDFONTOP]. *)
Lemma put_font_other_width_witness :
  kfont_put_font 3 (zeroed 64) 1 16 16
                 (start [Fails ENOSYS; Reports 0 0 0; Reports 0 0 0] []) =
  (-1, World ENOSYS {| ioctls := [Reports 0 0 0; Reports 0 0 0];
                       mallocs := [] |}
             [Ioctl 3 (KDFONTOP (put_cfo (zeroed 64) 1 16 16))]).
Proof.
  apply (put_font_other_width 3 (zeroed 64) 1 16 16
           (start [Fails ENOSYS; Reports 0 0 0; Reports 0 0 0] [])).
  - cbn. discriminate.
  - reflexivity.
Defined.

(** One glyph, rounded up to 256. *)
Lemma put_font_retries_rounded_witness :
  let w := start [Fails EINVAL; Reports 0 0 0] [Some 4096] in
  retried 3 one_dot 1 8 0 4096 w (snd (kfont_put_font 3 one_dot 1 8 0 w)).
Proof.
  cbn zeta.
  destruct (put_font_retries_rounded 3 one_dot 1 8 0
              (start [Fails EINVAL; Reports 0 0 0] [Some 4096])
              {| ioctls := [Reports 0 0 0]; mallocs := [Some 4096] |}
              4096
              {| ioctls := [Reports 0 0 0]; mallocs := [] |})
    as (_ & _ & H & _ & _).
  - unfold U32.ok, U32.modulus. lia.
  - reflexivity.
  - discriminate.
  - lia.
  - vm_compute. discriminate.
  - reflexivity.
  - reflexivity.
  - exact H.
Defined.

(** C1 (as stated) fails for [ENOSYS]: the Tier 1 request is not supported,
    the width is 8, the count is 1 and an allocation would succeed, yet the
    run makes no second Tier 1 request; it goes on to [PIO_FONTX]. *)
Lemma put_font_enosys_no_retry :
  let w := start [Fails ENOSYS; Reports 0 0 0] [Some 4096] in
  let cfo := put_cfo one_dot 1 8 (default_height one_dot 1 8 0) in
  ioctl 3 (KDFONTOP cfo) (kernel w) =
    (Failed ENOSYS, {| ioctls := [Reports 0 0 0]; mallocs := [Some 4096] |}) /\
  unsupported ENOSYS /\
  default_width 8 = 8 /\ 1 <> 256 /\ 1 < 512 /\
  32 * 1 <= Z.of_nat (length one_dot) /\
  calls_since w (snd (kfont_put_font 3 one_dot 1 8 0 w)) =
    [Ioctl 3 (KDFONTOP cfo); Ioctl 3 (PIO_FONTX (put_cfd one_dot 1 5))] /\
  ~ exists p,
      retried 3 one_dot 1 8 0 p w (snd (kfont_put_font 3 one_dot 1 8 0 w)).
Proof.
  cbn zeta. split; [reflexivity |]. split; [left; reflexivity |].
  split; [reflexivity |]. split; [discriminate |]. split; [lia |].
  split; [vm_compute; discriminate |]. split; [reflexivity |].
  intros (p & rest & Heq & _). vm_compute in Heq. discriminate Heq.
Qed.

(** C6, write direction.  [kfont_put_font] has no ceiling on the count it
    hands to Tier 2: asked for 65792 glyphs of width 8, with a [KDFONTOP]
    that fails with [EINVAL], it sends [PIO_FONTX] with
    [charcount = 65792 mod 65536 = 256] and returns 0 when that is
    accepted. *)
Theorem put_font_truncates_count :
  kfont_put_font 3 (zeroed 2105344) 65792 8 16
                 (start [Fails EINVAL; Reports 0 0 0] []) =
  (0, World EINVAL {| ioctls := []; mallocs := [] |}
            [Ioctl 3 (KDFONTOP (put_cfo (zeroed 2105344) 65792 8 16));
             Ioctl 3 (PIO_FONTX {| cfd_charcount := 256;
                                   cfd_charheight := 16;
                                   cfd_chardata := Some (zeroed 2105344) |})]).
Proof. generalize (zeroed 2105344). intros buf. reflexivity. Qed.

(** ** Concrete runs *)

Example charheight_one_dot : font_charheight one_dot 1 8 = 5.
Proof. reflexivity. Qed.

Example charheight_blank : font_charheight (zeroed 64) 2 8 = 0.
Proof. reflexivity. Qed.

Example get_font_second_tier :
  kfont_get_font 3 {| a_buf := None; a_count := 0;
                      a_width := Some 0; a_height := Some 0 |}
                 (start [Fails ENOSYS; Reports 128 8 14; Reports 256 8 0] []) =
  (0, {| a_buf := None; a_count := 128;
         a_width := Some 8; a_height := Some 14 |},
   World 0 {| ioctls := [Reports 256 8 0]; mallocs := [] |}
         [Ioctl 3 (KDFONTOP {| cfo_op := KD_FONT_OP_GET; cfo_flags := 0;
                               cfo_width := 32; cfo_height := 32;
                               cfo_charcount := 0; cfo_data := None |});
          Ioctl 3 (GIO_FONTX {| cfd_charcount := 0; cfd_charheight := 0;
                                cfd_chardata := None |})]).
Proof. reflexivity. Qed.

Example put_font_third_tier buf :
  kfont_put_font 3 buf 256 8 16
                 (start [Fails ENOSYS; Fails EINVAL; Reports 0 0 0] []) =
  (0, World EINVAL {| ioctls := []; mallocs := [] |}
            [Ioctl 3 (KDFONTOP (put_cfo buf 256 8 16));
             Ioctl 3 (PIO_FONTX (put_cfd buf 256 16));
             Ioctl 3 (PIO_FONT (Some buf))]).
Proof. reflexivity. Qed.

Example put_font_hundred_glyphs :
  let w := start [Fails EINVAL; Reports 0 0 0] [Some 4096] in
  let buf := zeroed 3200 in
  calls_since w (snd (kfont_put_font 3 buf 100 8 0 w)) =
  [Ioctl 3 (KDFONTOP (put_cfo buf 100 8 0));
   Malloc 8192;
   Ioctl 3 (KDFONTOP (put_cfo (buf ++ zeroed 4992) 256 8 0));
   Free 4096].
Proof. vm_compute. reflexivity. Qed.

(** ** More about font_charheight *)

Lemma effective_height_unique buf count width r r' :
  effective_height buf count width r ->
  effective_height buf count width r' -> r = r'.
Proof.
  intros (Hr & Hu & Ha) (Hr' & Hu' & Ha').
  destruct (Z.lt_trichotomy r r') as [Hlt | [Heq | Hgt]]; [| exact Heq |].
  - exfalso. apply (Ha r'); [lia | apply Hu'; lia].
  - exfalso. apply (Ha' r); [lia | apply Hu; lia].
Qed.

(** The scanner computes the effective height whenever the row size and
    the indices are exact, an empty font included. *)
Lemma font_charheight_effective_exact buf count width :
  0 <= count -> 0 <= ceil8 width ->
  bytewidth_of width = ceil8 width ->
  font_bytes count width <= U32.modulus ->
  effective_height buf count width (font_charheight buf count width).
Proof.
  intros Hc Hb Hbw Hsz. unfold font_charheight. rewrite Hbw.
  pose proof (rows_down_spec buf count (ceil8 width) 32) as (Hr & Hhit & Hab).
  change (Z.of_nat 32) with 32 in *.
  unfold font_bytes in Hsz.
  split; [assumption |]. split.
  - intros H1. apply row_hit_used; try lia. now apply Hhit.
  - intros h Hh Hused. apply row_hit_used in Hused; try lia.
    rewrite Hab in Hused by assumption. discriminate.
Qed.

Lemma row_used_same_font buf buf' count width h :
  0 <= ceil8 width -> 1 <= h <= 32 ->
  same_font buf buf' count width ->
  row_used buf count (ceil8 width) h -> row_used buf' count (ceil8 width) h.
Proof.
  intros Hb Hh Hsame (i & x & Hi & Hx & Hl). exists i, x.
  split; [exact Hi |]. split; [exact Hx |]. unfold lit in *.
  rewrite <- Hsame; [exact Hl |]. unfold font_bytes. nia.
Qed.

Lemma effective_height_same_font buf buf' count width r :
  0 <= ceil8 width ->
  same_font buf buf' count width ->
  effective_height buf count width r -> effective_height buf' count width r.
Proof.
  intros Hb Hsame (Hr & Hu & Ha). split; [exact Hr |]. split.
  - intros H1. apply (row_used_same_font buf); try assumption; try lia.
    now apply Hu.
  - intros h Hh Hused. apply (Ha h Hh).
    apply (row_used_same_font buf'); try assumption; try lia.
    intros j Hj. symmetry. now apply Hsame.
Qed.

(** X1.  Whatever the buffer, the count and the width, the height that
    [font_charheight] returns lies between 0 and 32. *)
Theorem font_charheight_bounded buf count width :
  0 <= font_charheight buf count width <= 32.
Proof.
  unfold font_charheight.
  pose proof (rows_down_spec buf count (bytewidth_of width) 32) as (H & _).
  exact H.
Qed.

(** X2.  A font without glyphs, or of width 0, has height 0: the scanner
    reads no byte of the buffer. *)
Theorem font_charheight_empty buf count width :
  count = 0 \/ width = 0 -> font_charheight buf count width = 0.
Proof.
  intros H. apply font_charheight_no_hit. intros h _. unfold row_hit.
  destruct H as [-> | ->].
  - reflexivity.
  - apply scan_false. intros i _. reflexivity.
Qed.

Lemma font_charheight_empty_witness : font_charheight two_dots 0 8 = 0.
Proof. apply font_charheight_empty. left. reflexivity. Defined.

(** X3.  For a font of at most [2^32] bytes the result depends on the
    bytes of the font alone: two buffers that agree on the first
    [count * 32 * ceil (width / 8)] bytes have the same height, whatever
    follows in either. *)
Theorem font_charheight_same_font buf buf' count width :
  1 <= count -> 1 <= width ->
  font_bytes count width <= U32.modulus ->
  same_font buf buf' count width ->
  font_charheight buf count width = font_charheight buf' count width.
Proof.
  intros Hc Hw Hsz Hsame.
  pose proof (ceil8_pos width Hw) as Hb.
  apply (effective_height_unique buf' count width).
  - apply (effective_height_same_font buf); try assumption; try lia.
    now apply font_charheight_effective.
  - now apply font_charheight_effective.
Qed.

Lemma font_charheight_same_font_witness :
  font_charheight one_dot 1 8 = font_charheight (one_dot ++ [xff; xff]) 1 8.
Proof.
  apply font_charheight_same_font.
  - lia.
  - lia.
  - vm_compute. discriminate.
  - intros j Hj. change (font_bytes 1 8) with 32 in Hj.
    unfold load. rewrite app_nth1; [reflexivity |].
    change (length one_dot) with 32%nat. lia.
Defined.

(** X4.  Glyphs can only add height: for a font of at most [2^32] bytes,
    the height of the first [count] glyphs is at most the height of the
    first [count'] glyphs when [count <= count']. *)
Theorem font_charheight_more_glyphs buf count count' width :
  1 <= count <= count' -> 1 <= width ->
  font_bytes count' width <= U32.modulus ->
  font_charheight buf count width <= font_charheight buf count' width.
Proof.
  intros Hc Hw Hsz.
  pose proof (ceil8_pos width Hw) as Hb.
  assert (Hsz0 : font_bytes count width <= U32.modulus)
    by (unfold font_bytes in *; nia).
  destruct (font_charheight_effective buf count width) as (Hr & Hu & _);
    try assumption; try lia.
  destruct (font_charheight_effective buf count' width) as (Hr' & _ & Ha');
    try assumption; try lia.
  destruct (Z_le_gt_dec (font_charheight buf count width)
                        (font_charheight buf count' width)) as [| Hgt];
    [assumption | exfalso].
  apply (Ha' (font_charheight buf count width)); [lia |].
  destruct Hu as (i & x & Hi & Hx & Hl); [lia |].
  exists i, x. split; [lia |]. split; assumption.
Qed.

Lemma font_charheight_more_glyphs_witness :
  font_charheight two_dots 1 8 <= font_charheight two_dots 2 8.
Proof.
  apply font_charheight_more_glyphs.
  - lia.
  - lia.
  - vm_compute. discriminate.
Defined.

(** X5.  The scratch buffer of the rounding retry has the height of the
    caller's font: padding [count < 512] glyphs of width 8 with zero glyphs
    up to 256 or 512 leaves the result of [font_charheight] as it was. *)
Theorem font_charheight_scratch buf count :
  0 <= count < 512 ->
  32 * count <= Z.of_nat (length buf) ->
  font_charheight (scratch buf count (rounded_count count))
                  (rounded_count count) 8 =
  font_charheight buf count 8.
Proof.
  intros Hc Hlen. set (ct := rounded_count count).
  assert (Hct : count <= ct <= 512)
    by (destruct (rounded_count_cases count) as [[Hq ?] | [Hq ?]];
        unfold ct; rewrite Hq; lia).
  destruct (scratch_padded buf count Hc Hlen) as (_ & Hcopy & Hzero).
  fold ct in Hcopy, Hzero.
  assert (Hb : ceil8 8 = 1) by reflexivity.
  assert (He : effective_height buf count 8 (font_charheight buf count 8)).
  { apply font_charheight_effective_exact; try lia; try reflexivity.
    unfold font_bytes, U32.modulus. lia. }
  apply (effective_height_unique (scratch buf count ct) ct 8).
  - apply font_charheight_effective_exact; try lia; try reflexivity.
    unfold font_bytes, U32.modulus. lia.
  - destruct He as (Hr & Hu & Ha). split; [exact Hr |]. split.
    + intros H1. destruct (Hu H1) as (i & x & Hi & Hx & Hl).
      exists i, x. split; [lia |]. split; [exact Hx |]. unfold lit in *.
      rewrite Hcopy; [exact Hl | lia].
    + intros h Hh (i & x & Hi & Hx & Hl). unfold lit in Hl.
      destruct (Z_lt_le_dec i count) as [Hin | Hout].
      * apply (Ha h Hh). exists i, x. split; [lia |]. split; [exact Hx |].
        unfold lit. rewrite <- Hcopy; [exact Hl | lia].
      * apply Hl. apply Hzero. lia.
Qed.

Lemma font_charheight_scratch_witness :
  font_charheight (scratch one_dot 1 (rounded_count 1)) (rounded_count 1) 8 =
  font_charheight one_dot 1 8.
Proof.
  apply font_charheight_scratch.
  - lia.
  - vm_compute. discriminate.
Defined.

(** ** More about the read functions *)

Section ReadPaths.

Context {K : Type} {P : Platform K}.

Implicit Types (fd : Z) (a : font_args) (w : world K) (e : Z).

(** The values a read probe can return. *)
Lemma read_probe_values t fd a w :
  let r := fst (fst (read_probe t fd a w)) in
  r = 0 \/ r = -1 \/ (r = 1 /\ t <> Tier3).
Proof.
  cbn zeta. destruct t; cbn [read_probe].
  - destruct (ioctl fd (KDFONTOP (get_cfo a)) (kernel w))
      as [[out | e] k1] eqn:H.
    + rewrite (kdfontop_done _ _ _ _ _ H). now left.
    + rewrite (kdfontop_failed _ _ _ _ _ H). cbn [fst]. unfold failure_value.
      destruct (negb (e =? ENOSYS) && negb (e =? EINVAL));
        [now right; left | right; right; split; [reflexivity | discriminate]].
  - destruct (Z_le_gt_dec (a_count a) USHRT_MAX) as [Hc | Hc].
    + destruct (ioctl fd (GIO_FONTX (get_cfd a)) (kernel w))
        as [[out | e] k1] eqn:H.
      * rewrite (giofontx_done _ _ _ _ _ Hc H). now left.
      * rewrite (giofontx_failed _ _ _ _ _ Hc H). cbn [fst].
        unfold failure_value.
        destruct (negb (e =? ENOSYS) && negb (e =? EINVAL));
          [now right; left
          | right; right; split; [reflexivity | discriminate]].
    + rewrite giofontx_ceiling by lia. now right; left.
  - destruct (Z.eq_dec (a_count a) 256) as [Hc | Hc];
      [| rewrite giofont_rejects by (now left); now right; left].
    destruct (a_buf a) as [b |] eqn:Hb;
      [| rewrite giofont_rejects by (now right); now right; left].
    destruct (ioctl fd (GIO_FONT (Some b)) (kernel w))
      as [[out | e] k1] eqn:H.
    + rewrite (giofont_done _ _ _ _ _ _ Hc Hb H). now left.
    + rewrite (giofont_failed _ _ _ _ _ _ Hc Hb H). now right; left.
Qed.

(** A probe that returns 1 has made its request. *)
Lemma giofontx_unsupported_calls fd a w :
  0 < fst (fst (get_font_giofontx fd a w)) ->
  trace (snd (get_font_giofontx fd a w)) =
  trace w ++ [Ioctl fd (GIO_FONTX (get_cfd a))].
Proof.
  destruct (Z_le_gt_dec (a_count a) USHRT_MAX) as [Hc | Hc].
  - intros _.
    destruct (ioctl fd (GIO_FONTX (get_cfd a)) (kernel w))
      as [[out | e] k1] eqn:H.
    + now rewrite (giofontx_done _ _ _ _ _ Hc H).
    + now rewrite (giofontx_failed _ _ _ _ _ Hc H).
  - rewrite giofontx_ceiling by lia. cbn [fst]. lia.
Qed.

(** X6.  [kfont_get_font] returns 0 or -1 and nothing else: the value 1 by
    which a probe reports a request the kernel does not know never reaches
    the caller. *)
Theorem kfont_get_font_returns fd a w :
  let r := fst (fst (kfont_get_font fd a w)) in r = 0 \/ r = -1.
Proof.
  cbn zeta. rewrite kfont_get_font_eq.
  pose proof (read_probe_values Tier1 fd a w) as V1. cbn [read_probe] in V1.
  destruct (get_font_kdfontop fd a w) as [[r1 a1] w1]. cbn [fst] in V1.
  destruct (Z.leb_spec r1 0); cbn [fst]; [lia |].
  pose proof (read_probe_values Tier2 fd a1 w1) as V2. cbn [read_probe] in V2.
  destruct (get_font_giofontx fd a1 w1) as [[r2 a2] w2]. cbn [fst] in V2.
  destruct (Z.leb_spec r2 0); cbn [fst]; [lia |].
  pose proof (read_probe_values Tier3 fd a2 w2) as V3. cbn [read_probe] in V3.
  cbn zeta in V3. destruct V3 as [V3 | [V3 | (_ & V3)]];
    [now left | now right | contradiction].
Qed.

(** X7.  A read makes one, two or three requests, at most one to each
    tier and in the order of the tiers, and each of them carries the count
    and the buffer the caller passed in. *)
Theorem kfont_get_font_calls fd a w :
  exists n, (1 <= n <= 3)%nat /\
            calls_since w (snd (kfont_get_font fd a w)) =
            firstn n (get_calls fd a).
Proof.
  rewrite kfont_get_font_eq.
  pose proof (kdfontop_trace fd a w) as T1.
  pose proof (read_probe_keeps Tier1 fd a w) as K1. cbn [read_probe] in K1.
  destruct (get_font_kdfontop fd a w) as [[r1 a1] w1].
  cbn [fst snd] in T1, K1.
  destruct (Z.leb_spec r1 0); cbn [snd].
  { exists 1%nat. split; [lia |]. now apply calls_since_trace. }
  rewrite K1 by lia.
  pose proof (giofontx_trace fd a w1) as (l2 & T2 & Hl2).
  pose proof (giofontx_unsupported_calls fd a w1) as U2.
  pose proof (read_probe_keeps Tier2 fd a w1) as K2. cbn [read_probe] in K2.
  destruct (get_font_giofontx fd a w1) as [[r2 a2] w2].
  cbn [fst snd] in T2, U2, K2.
  destruct (Z.leb_spec r2 0); cbn [snd].
  { destruct Hl2 as [-> | ->].
    - exists 1%nat. split; [lia |]. apply calls_since_trace.
      rewrite T2, T1, app_nil_r. reflexivity.
    - exists 2%nat. split; [lia |]. apply calls_since_trace.
      rewrite T2, T1, <- app_assoc. reflexivity. }
  rewrite K2 by lia. specialize (U2 ltac:(lia)).
  pose proof (giofont_trace fd a w2) as (l3 & T3 & Hl3).
  destruct Hl3 as [-> | ->].
  - exists 2%nat. split; [lia |]. apply calls_since_trace.
    rewrite T3, U2, T1, app_nil_r, <- app_assoc. reflexivity.
  - exists 3%nat. split; [lia |]. apply calls_since_trace.
    rewrite T3, U2, T1, <- !app_assoc. reflexivity.
Qed.

(** X8.  Asked for more than 65535 glyphs on a kernel without [KDFONTOP],
    a read ends with -1 after that one request: Tier 2 refuses the count
    before any [GIO_FONTX], and Tier 3 is not tried. *)
Theorem kfont_get_font_ceiling fd a w e k1 :
  USHRT_MAX < a_count a ->
  ioctl fd (KDFONTOP (get_cfo a)) (kernel w) = (Failed e, k1) ->
  unsupported e ->
  kfont_get_font fd a w =
  (-1, a, World e k1 (trace w ++ [Ioctl fd (KDFONTOP (get_cfo a))])).
Proof.
  intros Hc H1 U1.
  rewrite kfont_get_font_eq, (kdfontop_failed _ _ _ _ _ H1).
  destruct (failure_value_outcome e) as [O1 _].
  rewrite outcome_of_le, (O1 U1).
  now rewrite giofontx_ceiling by exact Hc.
Qed.

(** X9.  No [GIO_FONT] request is made unless the caller asks for exactly
    256 glyphs and passes a buffer. *)
Theorem kfont_get_font_legacy_only fd a w :
  a_count a <> 256 \/ a_buf a = None ->
  calls_to Tier3 (calls_since w (snd (kfont_get_font fd a w))) = [].
Proof.
  intros Hrej. rewrite kfont_get_font_eq.
  pose proof (cascade_calls fd a w) as Hc.
  pose proof (read_probe_keeps Tier1 fd a w) as K1. cbn [read_probe] in K1.
  destruct (get_font_kdfontop fd a w) as [[r1 a1] w1]. cbn [fst snd] in K1.
  pose proof (read_probe_keeps Tier2 fd a1 w1) as K2. cbn [read_probe] in K2.
  destruct (get_font_giofontx fd a1 w1) as [[r2 a2] w2]. cbn [fst snd] in K2.
  destruct Hc as (l2 & l3 & Hl2 & _ & H1 & H2 & _).
  assert (Hl2' : calls_to Tier3 l2 = [])
    by (destruct Hl2 as [-> | ->]; reflexivity).
  destruct (Z.leb_spec r1 0); cbn [snd]; [now rewrite H1 |].
  destruct (Z.leb_spec r2 0); cbn [snd]; [rewrite H2; exact Hl2' |].
  rewrite giofont_rejects.
  - cbn [snd]. rewrite H2. exact Hl2'.
  - rewrite K2, K1 by lia. exact Hrej.
Qed.

(** X10.  On a kernel that knows neither [KDFONTOP] nor [GIO_FONTX], a read
    of 256 glyphs into a buffer is served by [GIO_FONT]: when that request
    succeeds the result is 0 with count 256, width 8 and height 0 stored
    where the caller asked for them; when it fails the result is -1 and
    nothing is stored. *)
Theorem kfont_get_font_third fd a w b e1 k1 e2 k2 r3 k3 :
  a_count a = 256 -> a_buf a = Some b ->
  ioctl fd (KDFONTOP (get_cfo a)) (kernel w) = (Failed e1, k1) ->
  unsupported e1 ->
  ioctl fd (GIO_FONTX (get_cfd a)) k1 = (Failed e2, k2) ->
  unsupported e2 ->
  ioctl fd (GIO_FONT (Some b)) k2 = (r3, k3) ->
  kfont_get_font fd a w =
  match r3 with
  | Done out =>
      (0, {| a_buf := filled (Some b) out;
             a_count := 256;
             a_width := store (a_width a) 8;
             a_height := store (a_height a) 0 |},
       World 0 k3 (trace w ++ get_calls fd a))
  | Failed e3 => (-1, a, World e3 k3 (trace w ++ get_calls fd a))
  end.
Proof.
  intros Hc Hb H1 U1 H2 U2 H3.
  assert (Hle : a_count a <= USHRT_MAX) by (rewrite Hc; discriminate).
  destruct (failure_value_outcome e1) as [O1 _].
  destruct (failure_value_outcome e2) as [O2 _].
  rewrite kfont_get_font_eq, (kdfontop_failed _ _ _ _ _ H1).
  rewrite outcome_of_le, (O1 U1).
  rewrite (giofontx_failed fd a _ e2 k2 Hle) by (cbn [kernel]; exact H2).
  rewrite outcome_of_le, (O2 U2).
  unfold get_calls. rewrite Hb.
  destruct r3 as [out | e3].
  - rewrite (giofont_done fd a _ b out k3 Hc Hb) by (cbn [kernel]; exact H3).
    cbn [trace]. rewrite <- !app_assoc. reflexivity.
  - rewrite (giofont_failed fd a _ b e3 k3 Hc Hb) by (cbn [kernel]; exact H3).
    cbn [trace]. rewrite <- !app_assoc. reflexivity.
Qed.

(** X11.  On a kernel without [KDFONTOP], a read of at most 65535 glyphs
    that [GIO_FONTX] serves returns 0 with the count and the height of the
    device and with width 8; the request carries the caller's count
    unchanged. *)
Theorem kfont_get_font_second fd a w e1 k1 out k2 :
  0 <= a_count a <= USHRT_MAX ->
  ioctl fd (KDFONTOP (get_cfo a)) (kernel w) = (Failed e1, k1) ->
  unsupported e1 ->
  ioctl fd (GIO_FONTX (get_cfd a)) k1 = (Done out, k2) ->
  cfd_charcount (get_cfd a) = a_count a /\
  kfont_get_font fd a w =
  (0, {| a_buf := filled (a_buf a) (cfd_chardata out);
         a_count := cfd_charcount out;
         a_width := store (a_width a) 8;
         a_height := store (a_height a) (cfd_charheight out) |},
   World 0 k2 (trace w ++ firstn 2 (get_calls fd a))).
Proof.
  intros Hc H1 U1 H2. split.
  - cbn [get_cfd cfd_charcount]. unfold to_ushort, USHRT_MAX in *.
    apply Z.mod_small. lia.
  - destruct (failure_value_outcome e1) as [O1 _].
    rewrite kfont_get_font_eq, (kdfontop_failed _ _ _ _ _ H1).
    rewrite outcome_of_le, (O1 U1).
    rewrite (giofontx_done fd a _ out k2) by (cbn [kernel]; tauto).
    cbn [trace firstn get_calls]. rewrite <- !app_assoc. reflexivity.
Qed.

(** X12.  [kfont_get_fontsize] returns the glyph count of the device as
    [KDFONTOP] reports it and, on a kernel without [KDFONTOP], as
    [GIO_FONTX] reports it. *)
Theorem kfont_get_fontsize_device fd w :
  (forall out k1,
      ioctl fd (KDFONTOP (get_cfo size_query)) (kernel w) = (Done out, k1) ->
      kfont_get_fontsize fd w =
      (cfo_charcount out,
       World 0 k1 (trace w ++ firstn 1 (get_calls fd size_query)))) /\
  (forall e1 k1 out k2,
      ioctl fd (KDFONTOP (get_cfo size_query)) (kernel w) = (Failed e1, k1) ->
      unsupported e1 ->
      ioctl fd (GIO_FONTX (get_cfd size_query)) k1 = (Done out, k2) ->
      kfont_get_fontsize fd w =
      (cfd_charcount out,
       World 0 k2 (trace w ++ firstn 2 (get_calls fd size_query)))).
Proof.
  split.
  - intros out k1 H1.
    rewrite kfont_get_fontsize_eq, kfont_get_font_eq,
      (kdfontop_done _ _ _ _ _ H1).
    reflexivity.
  - intros e1 k1 out k2 H1 U1 H2.
    assert (Hc : a_count size_query <= USHRT_MAX) by (cbn; discriminate).
    destruct (failure_value_outcome e1) as [O1 _].
    rewrite kfont_get_fontsize_eq, kfont_get_font_eq,
      (kdfontop_failed _ _ _ _ _ H1).
    rewrite outcome_of_le, (O1 U1).
    rewrite (giofontx_done fd size_query _ out k2 Hc)
      by (cbn [kernel]; exact H2).
    cbn [trace firstn get_calls]. rewrite <- !app_assoc. reflexivity.
Qed.

(** X13.  [kfont_restore_font] makes one [PIO_FONTRESET] request and
    nothing else: it returns 0 when the request succeeds and -1, with the
    cause in [errno], when it fails. *)
Theorem kfont_restore_font_once fd w r k1 :
  ioctl fd PIO_FONTRESET (kernel w) = (r, k1) ->
  kfont_restore_font fd w =
  (match r with Done _ => 0 | Failed _ => -1 end,
   World (match r with Done _ => errno w | Failed e => e end) k1
         (trace w ++ [Ioctl fd PIO_FONTRESET])).
Proof.
  intros H. unfold kfont_restore_font. run. answered H.
  destruct r; reflexivity.
Qed.

End ReadPaths.

(** ** More about kfont_put_font *)

Section WritePaths.

Context {K : Type} {P : Platform K}.

Implicit Types (fd : Z) (buf : buffer) (w : world K) (e : Z).

(** [kfont_put_font] in direct style. *)
Lemma kfont_put_font_eq fd buf count width height w :
  let width' := default_width width in
  let height' := default_height buf count width' height in
  let cfo := put_cfo buf count width' height' in
  let ct := rounded_count count in
  let again := KDFONTOP (retry_cfo cfo (scratch buf count ct) ct) in
  let t1 := trace w ++ [Ioctl fd (KDFONTOP cfo)] in
  kfont_put_font fd buf count width height w =
  match ioctl fd (KDFONTOP cfo) (kernel w) with
  | (Done _, k1) => (0, World (errno w) k1 t1)
  | (Failed e1, k1) =>
      if negb (width' =? 8) || (negb (e1 =? ENOSYS) && negb (e1 =? EINVAL))
      then (-1, World e1 k1 t1)
      else if rounds e1 width' count
      then
        let t2 := t1 ++ [Malloc (U32.mul 32 ct)] in
        match malloc (U32.mul 32 ct) k1 with
        | (None, k2) => (-1, World e1 k2 t2)
        | (Some p, k2) =>
            let t3 := (t2 ++ [Ioctl fd again]) ++ [Free p] in
            match ioctl fd again k2 with
            | (Done _, k3) => (0, World e1 k3 t3)
            | (Failed e2, k3) => put_lower fd buf count height' e2 k3 t3
            end
        end
      else put_lower fd buf count height' e1 k1 t1
  end.
Proof.
  cbn zeta. unfold kfont_put_font, put_lower, rounds.
  destruct w as [e0 k0 t0]. run_fields.
  destruct (ioctl fd _ k0) as [[out1 | e1] k1]; run_fields; [reflexivity |].
  destruct (negb (default_width width =? 8)
            || negb (e1 =? ENOSYS) && negb (e1 =? EINVAL));
    [reflexivity |].
  run_fields.
  destruct ((e1 =? EINVAL) && (default_width width =? 8)
            && negb (count =? 256) && (count <? 512)); run_fields.
  - destruct (malloc _ k1) as [[p |] k2]; run_fields; [| reflexivity].
    destruct (ioctl fd (KDFONTOP (retry_cfo _ _ _)) k2) as [[out2 | e2] k3];
      run_fields; [reflexivity |].
    destruct (ioctl fd (PIO_FONTX _) k3) as [[out3 | e3] k4]; run_fields;
      [reflexivity |].
    destruct (negb (e3 =? ENOSYS) && negb (e3 =? EINVAL)); [reflexivity |].
    run_fields.
    destruct (ioctl fd (PIO_FONT _) k4) as [[out4 | e4] k5]; reflexivity.
  - destruct (ioctl fd (PIO_FONTX _) k1) as [[out3 | e3] k4]; run_fields;
      [reflexivity |].
    destruct (negb (e3 =? ENOSYS) && negb (e3 =? EINVAL)); [reflexivity |].
    run_fields.
    destruct (ioctl fd (PIO_FONT _) k4) as [[out4 | e4] k5]; reflexivity.
Qed.

Lemma put_lower_value fd buf count height e k t :
  let r := fst (put_lower fd buf count height e k t) in r = 0 \/ r = -1.
Proof.
  cbn zeta. unfold put_lower.
  destruct (ioctl fd (PIO_FONTX _) k) as [[out2 | e2] k2]; [now left |].
  destruct (negb (e2 =? ENOSYS) && negb (e2 =? EINVAL)); [now right |].
  destruct (ioctl fd (PIO_FONT _) k2) as [[out3 | e3] k3];
    [now left | now right].
Qed.

Lemma put_lower_calls fd buf count height e k t :
  exists rest,
    trace (snd (put_lower fd buf count height e k t)) =
    t ++ Ioctl fd (PIO_FONTX (put_cfd buf count height)) :: rest /\
    filter is_heap_call rest = [].
Proof.
  unfold put_lower.
  destruct (ioctl fd (PIO_FONTX _) k) as [[out2 | e2] k2];
    [exists []; now split |].
  destruct (negb (e2 =? ENOSYS) && negb (e2 =? EINVAL));
    [exists []; now split |].
  exists [Ioctl fd (PIO_FONT (Some buf))].
  destruct (ioctl fd (PIO_FONT _) k2) as [[out3 | e3] k3];
    cbn [snd trace]; rewrite <- app_assoc; now split.
Qed.

Lemma rounds_false e width count :
  e <> EINVAL \/ width <> 8 \/ count = 256 \/ 512 <= count ->
  rounds e width count = false.
Proof.
  unfold rounds. intros H.
  destruct (Z.eqb_spec e EINVAL); [| reflexivity].
  destruct (Z.eqb_spec width 8); [| reflexivity].
  destruct (Z.eqb_spec count 256); [reflexivity |].
  destruct (Z.ltb_spec count 512); [lia | reflexivity].
Qed.

Lemma unsupported_passes e :
  unsupported e -> negb (e =? ENOSYS) && negb (e =? EINVAL) = false.
Proof. intros [-> | ->]; reflexivity. Qed.

Lemma hard_stops e :
  ~ unsupported e -> negb (e =? ENOSYS) && negb (e =? EINVAL) = true.
Proof.
  unfold unsupported. intros H.
  destruct (Z.eqb_spec e ENOSYS); [tauto |].
  destruct (Z.eqb_spec e EINVAL); [tauto | reflexivity].
Qed.

(** X14.  Every write starts with one [KDFONTOP] set request for the
    caller's count and buffer, with width 8 in place of 0 and, in place of
    a height of 0, the height [font_charheight] finds for that width: a
    caller that passes 0 for both gets the height of the font at width
    8. *)
Theorem kfont_put_font_first_request fd buf count width height w :
  let width' := if width =? 0 then 8 else width in
  let height' := if height =? 0 then font_charheight buf count width'
                 else height in
  exists rest,
    calls_since w (snd (kfont_put_font fd buf count width height w)) =
    Ioctl fd (KDFONTOP {| cfo_op := KD_FONT_OP_SET;
                          cfo_flags := 0;
                          cfo_width := width';
                          cfo_height := height';
                          cfo_charcount := count;
                          cfo_data := Some buf |}) :: rest.
Proof.
  cbn zeta. rewrite kfont_put_font_eq. cbn zeta.
  fold (default_width width).
  fold (default_height buf count (default_width width) height).
  fold (put_cfo buf count (default_width width)
                (default_height buf count (default_width width) height)).
  set (first := Ioctl fd (KDFONTOP _)).
  assert (Hone : forall e k, calls_since w (World e k (trace w ++ [first]))
                             = [first]) by (intros; apply calls_since_app).
  destruct (ioctl fd _ (kernel w)) as [[out1 | e1] k1];
    [exists []; apply Hone |].
  destruct (negb _ || _); [exists []; apply Hone |].
  destruct (rounds _ _ _).
  - destruct (malloc _ k1) as [[p |] k2].
    + destruct (ioctl fd _ k2) as [[out2 | e2] k3].
      * eexists. apply calls_since_trace. cbn [snd trace].
        rewrite <- !app_assoc. reflexivity.
      * destruct (put_lower_calls fd buf count
                    (default_height buf count (default_width width) height)
                    e2 k3
                    (((trace w ++ [first])
                        ++ [Malloc (U32.mul 32 (rounded_count count))])
                       ++ [Ioctl fd (KDFONTOP (retry_cfo
                             (put_cfo buf count (default_width width)
                                (default_height buf count
                                   (default_width width) height))
                             (scratch buf count (rounded_count count))
                             (rounded_count count)))] ++ [Free p]))
          as (rest & Ht & _).
        eexists. apply calls_since_trace.
        rewrite app_assoc in Ht. rewrite Ht, <- !app_assoc. reflexivity.
    + eexists. apply calls_since_trace. cbn [snd trace].
      rewrite <- !app_assoc. reflexivity.
  - destruct (put_lower_calls fd buf count
                (default_height buf count (default_width width) height)
                e1 k1 (trace w ++ [first])) as (rest & Ht & _).
    eexists. apply calls_since_trace. rewrite Ht, <- !app_assoc. reflexivity.
Qed.

(** X15.  The first request decides the write alone when it succeeds or
    fails with a code other than [ENOSYS] and [EINVAL], whatever the width:
    the result is 0, respectively -1 with that code in [errno], and no
    other call is made. *)
Theorem kfont_put_font_first_decides fd buf count width height w r1 k1 :
  let width' := default_width width in
  let cfo := put_cfo buf count width'
                     (default_height buf count width' height) in
  ioctl fd (KDFONTOP cfo) (kernel w) = (r1, k1) ->
  match r1 with
  | Done _ => True
  | Failed e1 => ~ unsupported e1
  end ->
  kfont_put_font fd buf count width height w =
  (match r1 with Done _ => 0 | Failed _ => -1 end,
   World (match r1 with Done _ => errno w | Failed e1 => e1 end) k1
         (trace w ++ [Ioctl fd (KDFONTOP cfo)])).
Proof.
  cbn zeta. intros H1 Hr. rewrite kfont_put_font_eq. cbn zeta. rewrite H1.
  destruct r1 as [out1 | e1]; [reflexivity |].
  rewrite (hard_stops e1 Hr), orb_true_r. reflexivity.
Qed.


(** X17.  With width 8, a [KDFONTOP] the kernel does not know and no
    rounding to try (the code is [ENOSYS], or the count is 256 or at least
    512), the write goes on to [PIO_FONTX] without any allocation, and that
    request decides it when it succeeds or fails with a code other than
    [ENOSYS] and [EINVAL]: the result is 0, respectively -1, and
    [PIO_FONT] is not tried. *)
Theorem kfont_put_font_second_decides
  fd buf count width height w e1 k1 r2 k2 :
  let width' := default_width width in
  let height' := default_height buf count width' height in
  let cfo := put_cfo buf count width' height' in
  let cfd := put_cfd buf count height' in
  width' = 8 ->
  ioctl fd (KDFONTOP cfo) (kernel w) = (Failed e1, k1) ->
  unsupported e1 ->
  e1 = ENOSYS \/ count = 256 \/ 512 <= count ->
  ioctl fd (PIO_FONTX cfd) k1 = (r2, k2) ->
  match r2 with
  | Done _ => True
  | Failed e2 => ~ unsupported e2
  end ->
  kfont_put_font fd buf count width height w =
  (match r2 with Done _ => 0 | Failed _ => -1 end,
   World (match r2 with Done _ => e1 | Failed e2 => e2 end) k2
         (trace w ++ [Ioctl fd (KDFONTOP cfo); Ioctl fd (PIO_FONTX cfd)])).
Proof.
  cbn zeta. intros Hw H1 U1 Hno H2 Hr.
  assert (Hw8 : (default_width width =? 8) = true)
    by (rewrite Hw; reflexivity).
  rewrite kfont_put_font_eq. cbn zeta. rewrite H1, Hw8.
  rewrite (unsupported_passes e1 U1). cbn [negb orb].
  rewrite rounds_false
    by (destruct Hno as [-> | [? | ?]];
        [left; discriminate | now right; right; left | now right; right; right]).
  unfold put_lower. rewrite H2.
  destruct r2 as [out2 | e2]; [now rewrite <- app_assoc |].
  rewrite (hard_stops e2 Hr), <- app_assoc. reflexivity.
Qed.

(** X18.  With width 8 and a kernel that knows neither [KDFONTOP] nor
    [PIO_FONTX] (and no rounding to try), the write ends with [PIO_FONT] on
    the caller's own buffer, whatever the count: the result is 0 when that
    request succeeds and -1 when it fails, after exactly three
    requests. *)
Theorem kfont_put_font_third_decides
  fd buf count width height w e1 k1 e2 k2 r3 k3 :
  let width' := default_width width in
  let height' := default_height buf count width' height in
  let cfo := put_cfo buf count width' height' in
  let cfd := put_cfd buf count height' in
  width' = 8 ->
  ioctl fd (KDFONTOP cfo) (kernel w) = (Failed e1, k1) ->
  unsupported e1 ->
  e1 = ENOSYS \/ count = 256 \/ 512 <= count ->
  ioctl fd (PIO_FONTX cfd) k1 = (Failed e2, k2) ->
  unsupported e2 ->
  ioctl fd (PIO_FONT (Some buf)) k2 = (r3, k3) ->
  kfont_put_font fd buf count width height w =
  (match r3 with Done _ => 0 | Failed _ => -1 end,
   World (match r3 with Done _ => e2 | Failed e3 => e3 end) k3
         (trace w ++ [Ioctl fd (KDFONTOP cfo); Ioctl fd (PIO_FONTX cfd);
                      Ioctl fd (PIO_FONT (Some buf))])).
Proof.
  cbn zeta. intros Hw H1 U1 Hno H2 U2 H3.
  assert (Hw8 : (default_width width =? 8) = true)
    by (rewrite Hw; reflexivity).
  rewrite kfont_put_font_eq. cbn zeta. rewrite H1, Hw8.
  rewrite (unsupported_passes e1 U1). cbn [negb orb].
  rewrite rounds_false
    by (destruct Hno as [-> | [? | ?]];
        [left; discriminate | now right; right; left | now right; right; right]).
  unfold put_lower. rewrite H2, (unsupported_passes e2 U2), H3.
  destruct r3 as [out3 | e3]; now rewrite <- !app_assoc.
Qed.

(** X19.  A rounding retry that fails is never the end of the write,
    whatever its failure code: the scratch buffer is freed and the next
    request is [PIO_FONTX] with the caller's own buffer and count, not the
    rounded ones; when that request succeeds the write returns 0. *)
Theorem kfont_put_font_after_retry
  fd buf count width height w k1 p k2 e2 k3 :
  let width' := default_width width in
  let height' := default_height buf count width' height in
  let cfo := put_cfo buf count width' height' in
  let ct := rounded_count count in
  let again := KDFONTOP (retry_cfo cfo (scratch buf count ct) ct) in
  let cfd := put_cfd buf count height' in
  let res := kfont_put_font fd buf count width height w in
  width' = 8 -> 0 <= count < 512 -> count <> 256 ->
  ioctl fd (KDFONTOP cfo) (kernel w) = (Failed EINVAL, k1) ->
  malloc (32 * ct) k1 = (Some p, k2) ->
  ioctl fd again k2 = (Failed e2, k3) ->
  (exists rest,
      calls_since w (snd res) =
      [Ioctl fd (KDFONTOP cfo); Malloc (32 * ct); Ioctl fd again; Free p;
       Ioctl fd (PIO_FONTX cfd)] ++ rest) /\
  (forall out k4,
      ioctl fd (PIO_FONTX cfd) k3 = (Done out, k4) -> fst res = 0).
Proof.
  cbn zeta. intros Hw Hc Hne H1 Hm H2.
  assert (Hct : 0 <= rounded_count count <= 512)
    by (destruct (rounded_count_cases count) as [[-> ?] | [-> ?]]; lia).
  assert (Hw8 : (default_width width =? 8) = true)
    by (rewrite Hw; reflexivity).
  rewrite kfont_put_font_eq. cbn zeta. rewrite H1.
  unfold rounds. rewrite Hw8.
  change (EINVAL =? EINVAL) with true. change (EINVAL =? ENOSYS) with false.
  destruct (Z.eqb_spec count 256); [contradiction |].
  destruct (Z.ltb_spec count 512); [| lia].
  cbn [negb andb orb].
  rewrite (mul32_small (rounded_count count)) by exact Hct.
  rewrite Hm, H2. split.
  - match goal with
    | |- context [put_lower ?f ?b ?c ?h ?e ?k ?t] =>
        destruct (put_lower_calls f b c h e k t) as (rest & Ht & _)
    end.
    exists rest. apply calls_since_trace. rewrite Ht, <- !app_assoc.
    reflexivity.
  - intros out k4 H3. unfold put_lower. now rewrite H3.
Qed.

(** X20.  [kfont_put_font] returns 0 or -1 and nothing else. *)
Theorem kfont_put_font_returns fd buf count width height w :
  let r := fst (kfont_put_font fd buf count width height w) in
  r = 0 \/ r = -1.
Proof.
  cbn zeta. rewrite kfont_put_font_eq. cbn zeta.
  destruct (ioctl fd _ (kernel w)) as [[out1 | e1] k1]; [now left |].
  destruct (negb _ || _); [now right |].
  destruct (rounds _ _ _); [| apply put_lower_value].
  destruct (malloc _ k1) as [[p |] k2]; [| now right].
  destruct (ioctl fd _ k2) as [[out2 | e2] k3];
    [now left | apply put_lower_value].
Qed.

(** X21.  A write of 256 glyphs, of 512 glyphs or more, or of a width
    other than 8 never calls the allocator, whatever the device
    answers. *)
Theorem kfont_put_font_no_allocation fd buf count width height w :
  default_width width <> 8 \/ count = 256 \/ 512 <= count ->
  filter is_heap_call
         (calls_since w (snd (kfont_put_font fd buf count width height w)))
  = [].
Proof.
  intros Hno. rewrite kfont_put_font_eq. cbn zeta.
  set (first := Ioctl fd (KDFONTOP _)).
  assert (Hone : forall e k,
             filter is_heap_call
                    (calls_since w (World e k (trace w ++ [first]))) = [])
    by (intros; now rewrite calls_since_app).
  destruct (ioctl fd _ (kernel w)) as [[out1 | e1] k1]; [apply Hone |].
  destruct (negb _ || _); [apply Hone |].
  rewrite rounds_false by tauto.
  match goal with
  | |- context [put_lower ?f ?b ?c ?h ?e ?k ?t] =>
      destruct (put_lower_calls f b c h e k t) as (rest & Ht & Hrest)
  end.
  rewrite (calls_since_trace w _ (first :: Ioctl fd (PIO_FONTX
             (put_cfd buf count
                (default_height buf count (default_width width) height)))
             :: rest)).
  - cbn [filter is_heap_call first]. exact Hrest.
  - rewrite Ht, <- app_assoc. reflexivity.
Qed.

End WritePaths.

(** ** Concrete runs of the paths above *)

(** A query for 70000 glyphs on a kernel without [KDFONTOP]. *)
Lemma kfont_get_font_ceiling_witness :
  let a := {| a_buf := None; a_count := 70000;
              a_width := None; a_height := None |} in
  kfont_get_font 3 a (start [Fails ENOSYS; Reports 256 8 16] []) =
  (-1, a, World ENOSYS {| ioctls := [Reports 256 8 16]; mallocs := [] |}
                [Ioctl 3 (KDFONTOP (get_cfo a))]).
Proof.
  apply (kfont_get_font_ceiling 3
           {| a_buf := None; a_count := 70000;
              a_width := None; a_height := None |}
           (start [Fails ENOSYS; Reports 256 8 16] [])).
  - cbn. reflexivity.
  - reflexivity.
  - left. reflexivity.
Defined.

(** A read of 512 glyphs on a kernel that knows [GIO_FONT] only. *)
Lemma kfont_get_font_legacy_only_witness :
  let a := {| a_buf := Some (zeroed 16384); a_count := 512;
              a_width := None; a_height := None |} in
  let w := start [Fails ENOSYS; Fails ENOSYS; Reports 256 8 0] [] in
  calls_to Tier3 (calls_since w (snd (kfont_get_font 3 a w))) = [].
Proof.
  apply kfont_get_font_legacy_only. left. cbn. discriminate.
Defined.

(** A read of 256 glyphs on a kernel that knows [GIO_FONT] only. *)
Lemma kfont_get_font_third_witness :
  let a := {| a_buf := Some (zeroed 8192); a_count := 256;
              a_width := Some 0; a_height := Some 0 |} in
  kfont_get_font 3 a (start [Fails ENOSYS; Fails EINVAL; Reports 0 0 0] []) =
  (0, {| a_buf := Some (zeroed 8192); a_count := 256;
         a_width := Some 8; a_height := Some 0 |},
   World 0 {| ioctls := []; mallocs := [] |} (get_calls 3 a)).
Proof.
  apply (kfont_get_font_third 3
           {| a_buf := Some (zeroed 8192); a_count := 256;
              a_width := Some 0; a_height := Some 0 |}
           (start [Fails ENOSYS; Fails EINVAL; Reports 0 0 0] [])
           (zeroed 8192)
           ENOSYS {| ioctls := [Fails EINVAL; Reports 0 0 0]; mallocs := [] |}
           EINVAL {| ioctls := [Reports 0 0 0]; mallocs := [] |}
           (Done (Some (zeroed 8192))) {| ioctls := []; mallocs := [] |}).
  - reflexivity.
  - reflexivity.
  - reflexivity.
  - left. reflexivity.
  - reflexivity.
  - right. reflexivity.
  - reflexivity.
Defined.

(** A read of 128 glyphs that [GIO_FONTX] serves. *)
Lemma kfont_get_font_second_witness :
  let a := {| a_buf := None; a_count := 128;
              a_width := Some 0; a_height := Some 0 |} in
  cfd_charcount (get_cfd a) = 128 /\
  kfont_get_font 3 a (start [Fails ENOSYS; Reports 128 8 14] []) =
  (0, {| a_buf := None; a_count := 128;
         a_width := Some 8; a_height := Some 14 |},
   World 0 {| ioctls := []; mallocs := [] |} (firstn 2 (get_calls 3 a))).
Proof.
  apply (kfont_get_font_second 3
           {| a_buf := None; a_count := 128;
              a_width := Some 0; a_height := Some 0 |}
           (start [Fails ENOSYS; Reports 128 8 14] [])
           ENOSYS {| ioctls := [Reports 128 8 14]; mallocs := [] |}
           {| cfd_charcount := 128; cfd_charheight := 14;
              cfd_chardata := None |}
           {| ioctls := []; mallocs := [] |}).
  - cbn. split; discriminate.
  - reflexivity.
  - left. reflexivity.
  - reflexivity.
Defined.

(** A console of 512 glyphs behind [KDFONTOP]. *)
Lemma kfont_get_fontsize_device_witness :
  fst (kfont_get_fontsize 3 (start [Reports 512 8 16] [])) = 512.
Proof.
  destruct (kfont_get_fontsize_device 3 (start [Reports 512 8 16] []))
    as (H & _).
  rewrite (H (reported (KDFONTOP (get_cfo size_query)) 512 8 16)
             {| ioctls := []; mallocs := [] |} eq_refl).
  reflexivity.
Defined.

(** A reset that the device refuses with [EPERM]. *)
Lemma kfont_restore_font_once_witness :
  kfont_restore_font 3 (start [Fails 1] []) =
  (-1, World 1 {| ioctls := []; mallocs := [] |} [Ioctl 3 PIO_FONTRESET]).
Proof.
  apply (kfont_restore_font_once 3 (start [Fails 1] []) (Failed 1)
           {| ioctls := []; mallocs := [] |}).
  reflexivity.
Defined.

(** A write that the device refuses with [EPERM]. *)
Lemma kfont_put_font_first_decides_witness :
  kfont_put_font 3 one_dot 1 8 0 (start [Fails 1; Reports 0 0 0] []) =
  (-1, World 1 {| ioctls := [Reports 0 0 0]; mallocs := [] |}
             [Ioctl 3 (KDFONTOP (put_cfo one_dot 1 8 5))]).
Proof.
  apply (kfont_put_font_first_decides 3 one_dot 1 8 0
           (start [Fails 1; Reports 0 0 0] []) (Failed 1)
           {| ioctls := [Reports 0 0 0]; mallocs := [] |}).
  - reflexivity.
  - intros [H | H]; discriminate H.
Defined.


(** 256 glyphs on a kernel without [KDFONTOP] whose [PIO_FONTX] fails with
    [EPERM]. *)
Lemma kfont_put_font_second_decides_witness :
  kfont_put_font 3 (zeroed 8192) 256 8 16
                 (start [Fails ENOSYS; Fails 1; Reports 0 0 0] []) =
  (-1, World 1 {| ioctls := [Reports 0 0 0]; mallocs := [] |}
             [Ioctl 3 (KDFONTOP (put_cfo (zeroed 8192) 256 8 16));
              Ioctl 3 (PIO_FONTX (put_cfd (zeroed 8192) 256 16))]).
Proof.
  apply (kfont_put_font_second_decides 3 (zeroed 8192) 256 8 16
           (start [Fails ENOSYS; Fails 1; Reports 0 0 0] [])
           ENOSYS {| ioctls := [Fails 1; Reports 0 0 0]; mallocs := [] |}
           (Failed 1) {| ioctls := [Reports 0 0 0]; mallocs := [] |}).
  - reflexivity.
  - reflexivity.
  - left. reflexivity.
  - left. reflexivity.
  - reflexivity.
  - intros [H | H]; discriminate H.
Defined.

(** 256 glyphs on a kernel that knows [PIO_FONT] only. *)
Lemma kfont_put_font_third_decides_witness :
  kfont_put_font 3 (zeroed 8192) 256 8 16
                 (start [Fails ENOSYS; Fails EINVAL; Reports 0 0 0] []) =
  (0, World EINVAL {| ioctls := []; mallocs := [] |}
            [Ioctl 3 (KDFONTOP (put_cfo (zeroed 8192) 256 8 16));
             Ioctl 3 (PIO_FONTX (put_cfd (zeroed 8192) 256 16));
             Ioctl 3 (PIO_FONT (Some (zeroed 8192)))]).
Proof.
  apply (kfont_put_font_third_decides 3 (zeroed 8192) 256 8 16
           (start [Fails ENOSYS; Fails EINVAL; Reports 0 0 0] [])
           ENOSYS
           {| ioctls := [Fails EINVAL; Reports 0 0 0]; mallocs := [] |}
           EINVAL {| ioctls := [Reports 0 0 0]; mallocs := [] |}
           (Done tt) {| ioctls := []; mallocs := [] |}).
  - reflexivity.
  - reflexivity.
  - left. reflexivity.
  - left. reflexivity.
  - reflexivity.
  - right. reflexivity.
  - reflexivity.
Defined.

(** One glyph whose retry fails with [EIO] and whose [PIO_FONTX]
    succeeds. *)
Lemma kfont_put_font_after_retry_witness :
  fst (kfont_put_font 3 one_dot 1 8 0
         (start [Fails EINVAL; Fails 5; Reports 0 0 0] [Some 4096])) = 0.
Proof.
  destruct (kfont_put_font_after_retry 3 one_dot 1 8 0
              (start [Fails EINVAL; Fails 5; Reports 0 0 0] [Some 4096])
              {| ioctls := [Fails 5; Reports 0 0 0]; mallocs := [Some 4096] |}
              4096
              {| ioctls := [Fails 5; Reports 0 0 0]; mallocs := [] |}
              5
              {| ioctls := [Reports 0 0 0]; mallocs := [] |})
    as (_ & H).
  - reflexivity.
  - lia.
  - discriminate.
  - reflexivity.
  - reflexivity.
  - reflexivity.
  - apply (H tt {| ioctls := []; mallocs := [] |}). reflexivity.
Defined.

(** 256 glyphs on a kernel without [KDFONTOP]. *)
Lemma kfont_put_font_no_allocation_witness :
  let w := start [Fails EINVAL; Reports 0 0 0] [Some 4096] in
  filter is_heap_call
         (calls_since w (snd (kfont_put_font 3 (zeroed 8192) 256 8 16 w)))
  = [].
Proof.
  apply kfont_put_font_no_allocation. right. left. reflexivity.
Defined.
